(** * Alarm analysis: a shallow embedding of [alarm-analysis.py]

    The script reshapes a wide table of per-room daily alarm counts into a
    long table, aggregates it three ways, prepares four chart panels and a
    small record of insights.  Tables are modelled as lists of rows, the
    [groupby] / [melt] / [pivot] / [sort_values] / [head] operations of the
    data-frame library by list functions with the same results, exceptions
    by an error monad, missing dates (NaT) by [None], and float64 columns by
    exact values extended with NaN and the two infinities. *)

From Stdlib Require Import List String Ascii Bool Arith ZArith QArith Lia.
From Stdlib Require Import Permutation Sorting.Sorted.
Import ListNotations.

Local Open Scope string_scope.
Local Open Scope list_scope.
Local Open Scope Z_scope.

(** ** Exceptions *)

Inductive exn : Type :=
| ValueError
| KeyError
| OSError.

Inductive result (A : Type) : Type :=
| Ok (a : A)
| Raise (e : exn).

Arguments Ok {A} a.
Arguments Raise {A} e.

Definition bind {A B : Type} (m : result A) (k : A -> result B) : result B :=
  match m with
  | Ok a => k a
  | Raise e => Raise e
  end.

Notation "x <- m ;; k" := (bind m (fun x => k))
  (at level 61, m at next level, right associativity).

Fixpoint mapM {A B : Type} (f : A -> result B) (l : list A) : result (list B) :=
  match l with
  | [] => Ok []
  | x :: t =>
      y <- f x ;;
      ys <- mapM f t ;;
      Ok (y :: ys)
  end.

(** ** Strings *)

(** [pat in s] *)
Fixpoint contains (pat s : string) : bool :=
  match s with
  | EmptyString => prefix pat EmptyString
  | String _ s' => prefix pat s || contains pat s'
  end.

(** [s.replace(pat, repl)] for a non-empty [pat]: occurrences are replaced
    from the left and do not overlap; [skip] counts the characters of the
    occurrence being dropped. *)
Fixpoint replace_from (pat repl : string) (skip : nat) (s : string) : string :=
  match s with
  | EmptyString => EmptyString
  | String c s' =>
      match skip with
      | S k => replace_from pat repl k s'
      | O =>
          if prefix pat s
          then String.append repl
                 (replace_from pat repl (String.length pat - 1) s')
          else String c (replace_from pat repl 0 s')
      end
  end.

Definition str_replace (pat repl s : string) : string :=
  replace_from pat repl 0 s.

(** ** Tables *)

(** A date of the long table: the parser is given the format ['%d'] only,
    so a timestamp is 1900-01-dd and is represented by its day of month. *)
Definition Timestamp : Type := nat.

(** A value of a datetime column: a timestamp, or [None] for NaT. *)
Definition Datetime : Type := option Timestamp.

(** What the pipeline needs of the values of a [Date] column: their
    equality, their order, and which of them are timestamps. *)
Class DateColumn (D : Type) : Type := {
  date_eq_dec : forall x y : D, {x = y} + {x <> y};
  date_leb : D -> D -> bool;
  timestamp_of : D -> option Timestamp
}.

#[export] Instance Timestamp_dates : DateColumn Timestamp := {|
  date_eq_dec := Nat.eq_dec;
  date_leb := Nat.leb;
  timestamp_of := Some
|}.

Definition Datetime_eq_dec (x y : Datetime) : {x = y} + {x <> y}.
Proof. decide equality; apply Nat.eq_dec. Defined.

(** NaT sorts before every timestamp. *)
Definition Datetime_leb (x y : Datetime) : bool :=
  match x, y with
  | None, _ => true
  | Some _, None => false
  | Some a, Some b => Nat.leb a b
  end.

#[export] Instance Datetime_dates : DateColumn Datetime := {|
  date_eq_dec := Datetime_eq_dec;
  date_leb := Datetime_leb;
  timestamp_of := fun d => d
|}.

(** The wide input, as the mapping handed to [pd.DataFrame]: the two
    identity columns and, in order, the remaining named integer columns. *)
Record Data : Type := mkData {
  data_Room_Codes : list string;
  data_Rooms : list string;
  data_values : list (string * list Z)
}.

(** One observation of the melted (long) table; [D] is the type of the
    [Date] column, first the variable name, at the end a timestamp. *)
Record obs (D : Type) : Type := mkObs {
  Room_Codes : string;
  Rooms : string;
  Date : D;
  Alarms : Z
}.

Arguments mkObs {D} _ _ _ _.
Arguments Room_Codes {D} _.
Arguments Rooms {D} _.
Arguments Date {D} _.
Arguments Alarms {D} _.

(** The long table of the data model: every date is a timestamp. *)
Definition LongTable : Type := list (obs Timestamp).

(** The long table as the reshaper returns it: a date may be NaT. *)
Definition Frame : Type := list (obs Datetime).

(** [pd.DataFrame(data)]: all columns must have the same length. *)
Definition DataFrame (data : Data) : result Data :=
  let n := List.length (data_Room_Codes data) in
  if Nat.eqb (List.length (data_Rooms data)) n
     && forallb (fun c => Nat.eqb (List.length (snd c)) n) (data_values data)
  then Ok data
  else Raise ValueError.

(** [df.columns] *)
Definition columns (df : Data) : list string :=
  "Room_Codes" :: "Rooms" :: map fst (data_values df).

(** [df[name]] for a value column. *)
Fixpoint get_column (name : string) (cols : list (string * list Z))
  : result (list Z) :=
  match cols with
  | [] => Raise KeyError
  | (n, vals) :: rest =>
      if String.eqb n name then Ok vals else get_column name rest
  end.

(** [pd.melt] with [id_vars=['Room_Codes', 'Rooms']]: for each value
    variable in turn, one row per row of the frame. *)
Definition melt_var (df : Data) (var : string) : result (list (obs string)) :=
  vals <- get_column var (data_values df) ;;
  Ok (map (fun '(c, r, a) => mkObs c r var a)
          (combine (combine (data_Room_Codes df) (data_Rooms df)) vals)).

(** The name of the value column must not be a column of the frame. *)
Definition melt (df : Data) (value_vars : list string)
  : result (list (obs string)) :=
  if existsb (String.eqb "Alarms") (columns df) then Raise ValueError
  else
    blocks <- mapM (melt_var df) value_vars ;;
    Ok (List.concat blocks).

(** [df['Date'] = f(df['Date'])] *)
Definition set_Date {D E : Type} (f : D -> E) (r : obs D) : obs E :=
  mkObs (Room_Codes r) (Rooms r) (f (Date r)) (Alarms r).

(** The strings [pd.to_datetime] reads as a missing date. *)
Definition nat_strings : list string :=
  ["NaT"; "nat"; "NAT"; "nan"; "NaN"; "NAN"].

Definition is_missing (tok : string) : bool :=
  String.eqb tok "" || existsb (String.eqb tok) nat_strings.

(** One element of the column: an empty or missing-value token becomes NaT
    without being parsed; any other token goes to the parser of the format,
    [None] standing for the error it raises. *)
Definition parse_token (strptime : string -> option Timestamp) (tok : string)
  : option Datetime :=
  if is_missing tok then Some None else option_map Some (strptime tok).

(** [pd.to_datetime(column, format=...)]: every element is parsed, the
    first one the format rejects raises. *)
Definition to_datetime (strptime : string -> option Timestamp)
  (df : list (obs string)) : result Frame :=
  mapM (fun r =>
          match parse_token strptime (Date r) with
          | Some d => Ok (set_Date (fun _ => d) r)
          | None => Raise ValueError
          end) df.

Definition value_vars_of (df : Data) : list string :=
  filter (contains "Count_") (columns df).

(** The day token of a column. *)
Definition day_token (col : string) : string := str_replace "Count_" "" col.

Section Reshaper.

(** The library's parser for the format ['%d']: [None] where it raises. *)
Variable strptime : string -> option Timestamp.

Definition load_and_process_data (data : Data) : result Frame :=
  df <- DataFrame data ;;
  df_melted <- melt df (value_vars_of df) ;;
  let df_melted := map (set_Date day_token) df_melted in
  to_datetime strptime df_melted.

End Reshaper.

(** The ['%d'] directive: a day of month 1..31 written with one digit, with
    two digits, or with a leading space; the whole token must match. *)
Definition digit_of (c : ascii) : option nat :=
  let n := nat_of_ascii c in
  if (48 <=? n)%nat && (n <=? 57)%nat then Some (n - 48)%nat else None.

Definition strptime_d (s : string) : option Timestamp :=
  match s with
  | String a EmptyString =>
      match digit_of a with
      | Some (S d) => Some (S d)
      | _ => None
      end
  | String a (String b EmptyString) =>
      match digit_of b with
      | None => None
      | Some y =>
          if Ascii.eqb a " " || Ascii.eqb a "0"
          then match y with O => None | S _ => Some y end
          else match digit_of a with
               | Some 1%nat => Some (10 + y)%nat
               | Some 2%nat => Some (20 + y)%nat
               | Some 3%nat => if (y <=? 1)%nat then Some (30 + y)%nat else None
               | _ => None
               end
      end
  | _ => None
  end.

(** ** Series and their reductions *)

(** [argsort]: a stable ascending sort of the rows by [key]. *)
Section Sort.

Context {A K : Type} (leb : K -> K -> bool) (key : A -> K).

Fixpoint insert (x : A) (l : list A) : list A :=
  match l with
  | [] => [x]
  | y :: t => if leb (key x) (key y) then x :: l else y :: insert x t
  end.

Fixpoint isort (l : list A) : list A :=
  match l with
  | [] => []
  | x :: t => insert x (isort t)
  end.

(** [sort_values(by, ascending=...)]: a descending sort reverses the
    rows, sorts them ascending and reverses the outcome. *)
Definition sort_values (ascending : bool) (l : list A) : list A :=
  if ascending then isort l else rev (isort (rev l)).

End Sort.

(** [Series.sum()] of an integer column *)
Definition sum (l : list Z) : Z := fold_right Z.add 0 l.

(** [Series.max()]; [None] is the NaN an empty column gives. *)
Definition series_max (l : list Z) : option Z :=
  match l with
  | [] => None
  | x :: t => Some (fold_left Z.max t x)
  end.

(** [(x > 0).sum()] *)
Definition count_positive (l : list Z) : Z :=
  Z.of_nat (List.length (filter (fun x => 0 <? x) l)).

(** Values of a float64 column, without rounding: NaN, the infinities, and
    the reals [c * sqrt r] with [c] and [0 <= r] rational (a rational [q] is
    [Real q 1]).  Signed zeros are not distinguished. *)
Inductive float : Type :=
| NaN
| Inf (neg : bool)
| Real (c r : Q).

Definition of_Q (q : Q) : float := Real q 1.

Definition is_nan (x : float) : bool :=
  match x with NaN => true | _ => false end.

Definition is_finite (x : float) : bool :=
  match x with Real _ _ => true | _ => false end.

Definition is_zero (x : float) : bool :=
  match x with
  | Real c r => Qeq_bool c 0 || Qeq_bool r 0
  | _ => false
  end.

Definition is_neg (x : float) : bool :=
  match x with
  | NaN => false
  | Inf neg => neg
  | Real c r => negb (Qle_bool 0 c) && negb (Qeq_bool r 0)
  end.

(** [sqrt] of a rational *)
Definition fsqrt (q : Q) : float :=
  if Qle_bool 0 q then Real 1 q else NaN.

(** Division: [0/0] and [inf/inf] are NaN, [x/0] is infinite for [x <> 0]. *)
Definition fdiv (x y : float) : float :=
  match x, y with
  | NaN, _ => NaN
  | _, NaN => NaN
  | Inf _, Inf _ => NaN
  | Inf s, Real _ _ => Inf (xorb s (is_neg y))
  | Real _ _, Inf _ => Real 0 1
  | Real a r, Real b s =>
      if is_zero y
      then if is_zero x then NaN else Inf (is_neg x)
      else Real (a / (b * s)) (r * s)
  end.

(** [x > k] for an integer scalar [k]; false on NaN, true on +inf, and
    decided on the exact value of a finite [x] (float64 rounds [x] first, so
    the two can differ for values next to [k]). *)
Definition gt_scalar (x : float) (k : Z) : bool :=
  match x with
  | NaN => false
  | Inf neg => negb neg
  | Real c r =>
      let sq := (c * c * r)%Q in
      let k2 := inject_Z (k * k) in
      if 0 <=? k
      then negb (Qle_bool c 0) && negb (Qle_bool sq k2)
      else Qle_bool 0 c || Qeq_bool r 0 || negb (Qle_bool k2 sq)
  end.

(** [Series.mean()] *)
Definition mean (l : list Z) : float :=
  match l with
  | [] => NaN
  | _ :: _ => of_Q (sum l # Pos.of_nat (List.length l))
  end.

(** Sample variance (one degree of freedom removed) of at least two values. *)
Definition var (l : list Z) : Q :=
  let m := (sum l # Pos.of_nat (List.length l)) in
  let ss := fold_right Qplus 0%Q
              (map (fun x => ((inject_Z x - m) * (inject_Z x - m))%Q) l) in
  (ss / inject_Z (Z.of_nat (List.length l - 1)))%Q.

(** [Series.std()]: NaN below two observations. *)
Definition std (l : list Z) : float :=
  if (List.length l <? 2)%nat then NaN else fsqrt (var l).

(** ** Grouping *)

Section GroupBy.

Context {D K : Type}.
Variable eq_dec : forall x y : K, {x = y} + {x <> y}.
Variable leb : K -> K -> bool.
Variable key : obs D -> K.

(** The group keys: the distinct values of the key column, ascending. *)
Definition group_keys (df : list (obs D)) : list K :=
  isort leb (fun k => k) (nodup eq_dec (map key df)).

(** The [Alarms] of the rows of one group, in row order. *)
Definition group_of (df : list (obs D)) (k : K) : list Z :=
  map Alarms (filter (fun r => if eq_dec (key r) k then true else false) df).

(** [df.groupby(key)['Alarms']]: groups in ascending key order. *)
Definition groupby (df : list (obs D)) : list (K * list Z) :=
  map (fun k => (k, group_of df k)) (group_keys df).

End GroupBy.

Definition groupby_Date : LongTable -> list (Timestamp * list Z) :=
  groupby Nat.eq_dec Nat.leb Date.

Definition groupby_Room_Codes {D : Type}
  : list (obs D) -> list (string * list Z) :=
  groupby string_dec String.leb Room_Codes.

(** The rows [groupby('Date')] keeps: it drops those whose date is NaT. *)
Definition dropna {D : Type} `{DateColumn D} (df : list (obs D)) : LongTable :=
  flat_map (fun r => match timestamp_of (Date r) with
                     | Some d => [set_Date (fun _ => d) r]
                     | None => []
                     end) df.

(** ** Analyzer *)

Module RoomTotals.
(** One row of the room ranking (the room code is the index). *)
Record t : Type := mk {
  total_alarms : Z;
  avg_daily_alarms : float;
  max_daily_alarms : option Z;
  days_with_alarms : Z
}.
End RoomTotals.

Module RoomStats.
(** One row of the room variability view. *)
Record t : Type := mk {
  Room_Codes : string;
  mean : float;
  std : float;
  cv : float
}.
End RoomStats.

(** [.agg([('total_alarms', 'sum'), ('avg_daily_alarms', 'mean'),
          ('max_daily_alarms', 'max'), ('days_with_alarms', ...)])] *)
Definition agg_totals (g : string * list Z) : string * RoomTotals.t :=
  (fst g,
   RoomTotals.mk (sum (snd g)) (mean (snd g)) (series_max (snd g))
                 (count_positive (snd g))).

(** [.agg(['mean', 'std']).reset_index()] followed by the [cv] column. *)
Definition agg_stats (g : string * list Z) : RoomStats.t :=
  let m := mean (snd g) in
  let s := std (snd g) in
  RoomStats.mk (fst g) m s (fdiv s m).

Definition total_of (r : string * RoomTotals.t) : Z :=
  RoomTotals.total_alarms (snd r).

Definition analyze_alarm_patterns {D : Type} `{DateColumn D} (df : list (obs D))
  : list (Timestamp * Z) * list (string * RoomTotals.t) * list RoomStats.t :=
  let daily_totals :=
    map (fun g => (fst g, sum (snd g))) (groupby_Date (dropna df)) in
  let room_totals :=
    sort_values Z.leb total_of false (map agg_totals (groupby_Room_Codes df)) in
  let room_stats := map agg_stats (groupby_Room_Codes df) in
  (daily_totals, room_totals, room_stats).

Definition daily_totals_of {D : Type} `{DateColumn D} (df : list (obs D))
  : list (Timestamp * Z) :=
  fst (fst (analyze_alarm_patterns df)).

Definition room_totals_of {D : Type} `{DateColumn D} (df : list (obs D))
  : list (string * RoomTotals.t) :=
  snd (fst (analyze_alarm_patterns df)).

Definition room_stats_of {D : Type} `{DateColumn D} (df : list (obs D))
  : list RoomStats.t :=
  snd (analyze_alarm_patterns df).

(** The daily alarms of one room, in row order. *)
Definition room_alarms {D : Type} (df : list (obs D)) (c : string) : list Z :=
  group_of string_dec Room_Codes df c.

(** [.head(n)] *)
Definition head {A : Type} (n : nat) (l : list A) : list A := firstn n l.

(** ** Visualizer *)

(** What each of the four panels is given to draw. *)
Record Figure (D : Type) : Type := mkFigure {
  daily_trend : list (Timestamp * Z);
  top_10_bars : list Z;
  top_10_ticks : list string;
  heatmap_dates : list D;
  heatmap_rows : list (string * list (option Z));
  histogram : list Z
}.

Arguments mkFigure {D} _ _ _ _ _ _.
Arguments daily_trend {D} _.
Arguments top_10_bars {D} _.
Arguments top_10_ticks {D} _.
Arguments heatmap_dates {D} _.
Arguments heatmap_rows {D} _.
Arguments histogram {D} _.

(** [plt.style.use('seaborn')]: the style is in the plotting library up to
    its release 3.7 and was removed after it; [seaborn_style] tells whether
    the installed library still has it. *)
Definition style_use (seaborn_style : bool) : result unit :=
  if seaborn_style then Ok tt else Raise OSError.

(** [plt.bar(range(10), heights)]: the heights are broadcast against the
    ten positions, so there must be ten of them or a single one. *)
Definition bar (positions : nat) (heights : list Z) : result (list Z) :=
  if Nat.eqb (List.length heights) positions then Ok heights
  else match heights with
       | [h] => Ok (repeat h positions)
       | _ => Raise ValueError
       end.

(** [plt.xticks(range(10), labels)]: one label per tick position. *)
Definition xticks (positions : nat) (labels : list string) : result unit :=
  if Nat.eqb (List.length labels) positions then Ok tt else Raise ValueError.

Section Visualizer.

Context {D : Type} `{DateColumn D}.

Fixpoint has_duplicates (l : list (string * D)) : bool :=
  match l with
  | [] => false
  | (c, d) :: t =>
      existsb (fun p => String.eqb (fst p) c
                        && (if date_eq_dec (snd p) d then true else false)) t
      || has_duplicates t
  end.

(** The cell of a room and a date; [None] is the NaN of a missing pair. *)
Definition cell (df : list (obs D)) (c : string) (d : D) : option Z :=
  option_map Alarms
    (find (fun r => String.eqb (Room_Codes r) c
                    && (if date_eq_dec (Date r) d then true else false)) df).

(** [df.pivot(index='Room_Codes', columns='Date', values='Alarms')]: rooms
    and dates in ascending order; a repeated (room, date) pair raises. *)
Definition pivot (df : list (obs D))
  : result (list D * list (string * list (option Z))) :=
  if has_duplicates (map (fun r => (Room_Codes r, Date r)) df)
  then Raise ValueError
  else
    let dates := group_keys date_eq_dec date_leb Date df in
    let rooms := group_keys string_dec String.leb Room_Codes df in
    Ok (dates, map (fun c => (c, map (cell df c) dates)) rooms).

Definition create_visualizations (seaborn_style : bool) (df : list (obs D))
  (daily_totals : list (Timestamp * Z))
  (room_totals : list (string * RoomTotals.t)) : result (Figure D) :=
  _ <- style_use seaborn_style ;;
  let top_10_rooms := head 10 room_totals in
  bars <- bar 10 (map total_of top_10_rooms) ;;
  _ <- xticks 10 (map fst top_10_rooms) ;;
  pivot_data <- pivot df ;;
  Ok (mkFigure daily_totals bars (map fst top_10_rooms)
               (fst pivot_data) (head 20 (snd pivot_data))
               (map Alarms df)).

End Visualizer.

(** ** Insight summarizer *)

Module Insights.
Record t : Type := mk {
  total_alarms : Z;
  avg_daily_alarms : float;
  max_daily_alarms : Z;
  top_rooms : list string;
  rooms_with_high_variance : list string
}.
End Insights.

(** [int(x)] of a column maximum: NaN cannot be converted. *)
Definition int_of_max (m : option Z) : result Z :=
  match m with
  | Some z => Ok z
  | None => Raise ValueError
  end.

Definition generate_insights (daily_totals : list (Timestamp * Z))
  (room_totals : list (string * RoomTotals.t))
  (room_stats : list RoomStats.t) : result Insights.t :=
  let total := sum (map total_of room_totals) in
  let avg := mean (map snd daily_totals) in
  max_daily <- int_of_max (series_max (map snd daily_totals)) ;;
  Ok (Insights.mk total avg max_daily
        (map fst (head 5 room_totals))
        (map RoomStats.Room_Codes
           (filter (fun r => gt_scalar (RoomStats.cv r) 1) room_stats))).

Definition insights_of {D : Type} `{DateColumn D} (df : list (obs D))
  : result Insights.t :=
  generate_insights (daily_totals_of df) (room_totals_of df) (room_stats_of df).

(** ** The pipeline *)

(** The lines printed after the analysis: the three key figures and one
    line per top room with its own total. *)
Record Report : Type := mkReport {
  report_total : Z;
  report_average : float;
  report_maximum : Z;
  report_rooms : list (string * Z)
}.

(** [room_totals.loc[room, 'total_alarms']] *)
Fixpoint loc_total (room : string) (room_totals : list (string * RoomTotals.t))
  : result Z :=
  match room_totals with
  | [] => Raise KeyError
  | (c, r) :: rest =>
      if String.eqb c room then Ok (RoomTotals.total_alarms r)
      else loc_total room rest
  end.

Record Run : Type := mkRun {
  run_df : Frame;
  run_daily_totals : list (Timestamp * Z);
  run_room_totals : list (string * RoomTotals.t);
  run_room_stats : list RoomStats.t;
  run_insights : Insights.t;
  run_figure : Figure Datetime;
  run_report : Report
}.

Section Main.

Variable strptime : string -> option Timestamp.
Variable seaborn_style : bool.

(** [main], with the data it loads as its argument. *)
Definition main (your_data : Data) : result Run :=
  df <- load_and_process_data strptime your_data ;;
  let '(daily_totals, room_totals, room_stats) := analyze_alarm_patterns df in
  fig <- create_visualizations seaborn_style df daily_totals room_totals ;;
  insights <- generate_insights daily_totals room_totals room_stats ;;
  lines <- mapM (fun room => t <- loc_total room room_totals ;; Ok (room, t))
                (Insights.top_rooms insights) ;;
  Ok (mkRun df daily_totals room_totals room_stats insights fig
            (mkReport (Insights.total_alarms insights)
                      (Insights.avg_daily_alarms insights)
                      (Insights.max_daily_alarms insights) lines)).

End Main.

(** The worked example: room A with counts 3 and 5, and the silent room B,
    over two days. *)
Definition example_data : Data :=
  mkData ["A"; "B"] ["Room A"; "Room B"]
         [("Count_01", [3; 0]); ("Count_02", [5; 0])].

Definition example_long : LongTable :=
  [mkObs "A" "Room A" 1%nat 3; mkObs "B" "Room B" 1%nat 0;
   mkObs "A" "Room A" 2%nat 5; mkObs "B" "Room B" 2%nat 0].

(** A long table of the data model, as a frame without NaT. *)
Definition with_dates (df : LongTable) : Frame := map (set_Date Some) df.

(** The ways ['%d'] accepts a day of month to be written. *)
Inductive encoding : Type :=
| OneDigit
| TwoDigits
| SpacePadded.

Definition encoding_of (tok : string) : option encoding :=
  match tok with
  | String a EmptyString =>
      match digit_of a with Some _ => Some OneDigit | None => None end
  | String a (String b EmptyString) =>
      match digit_of b with
      | None => None
      | Some _ =>
          if Ascii.eqb a " " then Some SpacePadded
          else match digit_of a with
               | Some _ => Some TwoDigits
               | None => None
               end
      end
  | _ => None
  end.

(** ** Inputs used in the examples *)

(** Two day columns in different encodings that denote the same day. *)
Definition same_day_data : Data :=
  mkData ["A"] ["Room A"] [("Count_1", [2]); ("Count_01", [3])].

(** A table without rooms whose only day column has a malformed token. *)
Definition no_rooms_data : Data :=
  mkData [] [] [("Count_xx", [])].

(** One room and a day column whose token is empty. *)
Definition empty_token_data : Data :=
  mkData ["A"] ["Room A"] [("Count_", [4])].

(** One room observed on a single day. *)
Definition single_day_long : LongTable :=
  [mkObs "A" "Room A" 1%nat 5].

(** Twenty-one rooms A..U on one day; room A is silent and each later room
    has one alarm more than the one before it. *)
Definition letters : list string :=
  ["A"; "B"; "C"; "D"; "E"; "F"; "G"; "H"; "I"; "J"; "K"; "L"; "M"; "N";
   "O"; "P"; "Q"; "R"; "S"; "T"; "U"].

Definition twenty_one_rooms : Data :=
  mkData letters (map (String.append "Room ") letters)
         [("Count_01", map Z.of_nat (seq 0 21))].

(** The long table of [twenty_one_rooms]. *)
Definition twenty_one_long : LongTable :=
  map (fun p => mkObs (fst p) (String.append "Room " (fst p)) 1%nat (snd p))
      (combine letters (map Z.of_nat (seq 0 21))).

(** Six rooms A..F on one day, room A with one alarm and each later room
    with one more. *)
Definition six_rooms_long : LongTable :=
  [mkObs "A" "Room A" 1%nat 1; mkObs "B" "Room B" 1%nat 2;
   mkObs "C" "Room C" 1%nat 3; mkObs "D" "Room D" 1%nat 4;
   mkObs "E" "Room E" 1%nat 5; mkObs "F" "Room F" 1%nat 6].

(** * Properties *)

(** ** Worked examples *)

Example contains_ex : contains "Count_" "Count_01" = true /\
                      contains "Count_" "Room_Codes" = false /\
                      contains "Count_" "xCount_" = true.
Proof. repeat split; reflexivity. Qed.

Example day_token_ex : day_token "Count_07" = "07" /\
                       day_token "Count_Count_1x" = "1x".
Proof. split; reflexivity. Qed.

Example strptime_d_ex :
  map strptime_d ["01"; "1"; " 1"; "31"; "32"; "00"; "0"; "xx"; "007"; ""]
  = [Some 1; Some 1; Some 1; Some 31; None; None; None; None; None; None]%nat.
Proof. reflexivity. Qed.

Example mean_ex : mean [3; 5] = of_Q (8 # 2) /\ mean [] = NaN.
Proof. split; reflexivity. Qed.

Example std_ex :
  std [4; 4; 4] = Real 1 (var [4; 4; 4]) /\ Qeq_bool (var [4; 4; 4]) 0 = true /\
  std [5] = NaN /\ Qeq_bool (var [1; 3]) 2 = true.
Proof. repeat split; reflexivity. Qed.

Example fdiv_ex :
  fdiv (std [0; 0; 0]) (mean [0; 0; 0]) = NaN /\
  fdiv (std [-1; 1]) (mean [-1; 1]) = Inf false /\
  is_zero (fdiv (std [4; 4; 4]) (mean [4; 4; 4])) = true /\
  gt_scalar (fdiv (std [0; 9]) (mean [0; 9])) 1 = true /\
  gt_scalar (fdiv (std [4; 5]) (mean [4; 5])) 1 = false.
Proof. repeat split; reflexivity. Qed.

Example parse_token_ex :
  map (parse_token strptime_d) ["07"; ""; "nan"; "NaT"; "xx"; "32"]
  = [Some (Some 7%nat); Some None; Some None; Some None; None; None].
Proof. reflexivity. Qed.

Example load_ex :
  load_and_process_data strptime_d example_data = Ok (with_dates example_long).
Proof. reflexivity. Qed.

(** An empty day token is read as a missing date; the row is kept by the
    reshaper and by the room views, and dropped from the daily totals. *)
Example load_empty_token_ex :
  load_and_process_data strptime_d empty_token_data
  = Ok [mkObs "A" "Room A" None 4] /\
  daily_totals_of [mkObs "A" "Room A" (None : Datetime) 4] = [] /\
  map (fun r => (fst r, total_of r))
      (room_totals_of [mkObs "A" "Room A" (None : Datetime) 4]) = [("A", 4)].
Proof. repeat split; reflexivity. Qed.

Example analyze_ex :
  daily_totals_of example_long = [(1%nat, 3); (2%nat, 5)] /\
  map (fun r => (fst r, total_of r)) (room_totals_of example_long)
  = [("A", 8); ("B", 0)] /\
  map RoomStats.Room_Codes (room_stats_of example_long) = ["A"; "B"].
Proof. repeat split; reflexivity. Qed.

Example insights_ex :
  insights_of example_long
  = Ok (Insights.mk 8 (of_Q (8 # 2)) 5 ["A"; "B"] []).
Proof. reflexivity. Qed.

(** Two bars cannot be broadcast against the ten positions of the bar
    chart, so the worked example stops in the visualizer; with ten rooms or
    more, and the style at hand, the pipeline runs to its end. *)
Example main_ex :
  main strptime_d true example_data = Raise ValueError /\
  main strptime_d false example_data = Raise OSError.
Proof. split; reflexivity. Qed.

Example main_runs_ex :
  exists run,
    main strptime_d true twenty_one_rooms = Ok run /\
    Insights.top_rooms (run_insights run) = ["U"; "T"; "S"; "R"; "Q"] /\
    report_rooms (run_report run)
    = [("U", 20); ("T", 19); ("S", 18); ("R", 17); ("Q", 16)].
Proof. eexists; split; [vm_compute; reflexivity|split; reflexivity]. Qed.

(** ** The error monad *)

Lemma mapM_app {A B : Type} (f : A -> result B) (l1 l2 : list A) (out : list B) :
  mapM f (l1 ++ l2) = Ok out ->
  exists o1 o2, mapM f l1 = Ok o1 /\ mapM f l2 = Ok o2 /\ out = o1 ++ o2.
Proof.
  revert out; induction l1 as [|x t IH]; intros out H; simpl in *.
  - exists [], out; auto.
  - destruct (f x) as [y|e]; simpl in *; [|discriminate].
    destruct (mapM f (t ++ l2)) as [ys|e] eqn:E; simpl in *; [|discriminate].
    injection H as <-.
    destruct (IH ys eq_refl) as (o1 & o2 & H1 & H2 & ->).
    exists (y :: o1), o2; rewrite H1; simpl; auto.
Qed.

Lemma mapM_raise_In {A B : Type} (f : A -> result B) (l : list A) (x : A) (e : exn) :
  In x l -> f x = Raise e -> exists e', mapM f l = Raise e'.
Proof.
  induction l as [|y t IH]; intros Hin Hx; [contradiction|].
  simpl. destruct Hin as [->|Hin].
  - rewrite Hx; simpl; eauto.
  - destruct (f y); simpl; eauto.
    destruct (IH Hin Hx) as [e' ->]; simpl; eauto.
Qed.

Lemma mapM_Forall2 {A B : Type} (f : A -> result B) (l : list A) (out : list B) :
  mapM f l = Ok out -> Forall2 (fun x y => f x = Ok y) l out.
Proof.
  revert out; induction l as [|x t IH]; intros out H; simpl in *.
  - injection H as <-; constructor.
  - destruct (f x) as [y|e] eqn:Ex; simpl in *; [|discriminate].
    destruct (mapM f t) as [ys|e]; simpl in *; [|discriminate].
    injection H as <-; constructor; auto.
Qed.

(** ** Sums, sorting and grouping *)

Lemma sum_app (l1 l2 : list Z) : sum (l1 ++ l2) = sum l1 + sum l2.
Proof. induction l1; simpl; lia. Qed.

Lemma sum_map_Permutation {A : Type} (f : A -> Z) (l1 l2 : list A) :
  Permutation l1 l2 -> sum (map f l1) = sum (map f l2).
Proof. induction 1; simpl; lia. Qed.

Section SortFacts.

Context {A K : Type} (leb : K -> K -> bool) (key : A -> K).

Lemma insert_Permutation (x : A) (l : list A) :
  Permutation (insert leb key x l) (x :: l).
Proof.
  induction l as [|y t IH]; simpl; auto.
  destruct (leb (key x) (key y)); auto.
  rewrite IH; apply perm_swap.
Qed.

Lemma isort_Permutation (l : list A) : Permutation (isort leb key l) l.
Proof.
  induction l as [|x t IH]; simpl; auto.
  rewrite insert_Permutation; auto.
Qed.

Lemma sort_values_Permutation (asc : bool) (l : list A) :
  Permutation (sort_values leb key asc l) l.
Proof.
  unfold sort_values; destruct asc.
  - apply isort_Permutation.
  - rewrite <- Permutation_rev, isort_Permutation, <- Permutation_rev; auto.
Qed.

Variable le : K -> K -> Prop.
Hypothesis leb_le : forall a b, leb a b = true -> le a b.
Hypothesis leb_total : forall a b, leb a b = false -> le b a.
Hypothesis le_trans : forall a b c, le a b -> le b c -> le a c.

Lemma insert_sorted (x : A) (l : list A) :
  StronglySorted (fun u v => le (key u) (key v)) l ->
  StronglySorted (fun u v => le (key u) (key v)) (insert leb key x l).
Proof.
  induction 1 as [|y t Hs IH Hy]; simpl.
  - repeat constructor.
  - destruct (leb (key x) (key y)) eqn:E.
    + constructor; [constructor; auto|].
      constructor; [apply leb_le; auto|].
      eapply Forall_impl; [|exact Hy].
      intros z Hz; eapply le_trans; [apply leb_le; eauto|exact Hz].
    + constructor; auto.
      eapply Permutation_Forall; [symmetry; apply insert_Permutation|].
      constructor; [apply leb_total; exact E|exact Hy].
Qed.

Lemma isort_sorted (l : list A) :
  StronglySorted (fun u v => le (key u) (key v)) (isort leb key l).
Proof.
  induction l as [|x t IH]; simpl; [constructor|].
  apply insert_sorted; auto.
Qed.

End SortFacts.

Lemma StronglySorted_app {A : Type} (R : A -> A -> Prop) (l1 l2 : list A) :
  StronglySorted R l1 -> StronglySorted R l2 ->
  (forall x y, In x l1 -> In y l2 -> R x y) ->
  StronglySorted R (l1 ++ l2).
Proof.
  induction 1 as [|a t Hs IH Hf]; simpl; intros H2 H; auto.
  constructor; [apply IH; auto|].
  rewrite Forall_app; split; auto.
  rewrite Forall_forall; auto.
Qed.

Lemma StronglySorted_rev {A : Type} (R : A -> A -> Prop) (l : list A) :
  StronglySorted R l -> StronglySorted (fun x y => R y x) (rev l).
Proof.
  induction 1 as [|a t Hs IH Hf]; simpl; [constructor|].
  apply StronglySorted_app; auto.
  - repeat constructor.
  - intros x y Hx [<-|[]].
    rewrite Forall_forall in Hf; apply Hf, in_rev; auto.
Qed.

Lemma StronglySorted_impl {A : Type} (R S : A -> A -> Prop) (l : list A) :
  (forall a b, R a b -> S a b) -> StronglySorted R l -> StronglySorted S l.
Proof.
  intros HRS; induction 1 as [|x t Hs IH Hf]; constructor; auto.
  eapply Forall_impl; [|exact Hf]. intros b; apply HRS.
Qed.

Lemma StronglySorted_nth_error {A : Type} (R : A -> A -> Prop) (l : list A) :
  StronglySorted R l ->
  forall i a b, nth_error l i = Some a -> nth_error l (S i) = Some b -> R a b.
Proof.
  induction 1 as [|x t Hs IH Hf]; intros i a b Ha Hb.
  - destruct i; discriminate.
  - destruct i as [|i]; simpl in *.
    + injection Ha as <-.
      rewrite Forall_forall in Hf; apply Hf.
      destruct t; [discriminate|]; simpl in Hb; injection Hb as <-; left; auto.
    + eapply IH; eauto.
Qed.

Lemma StronglySorted_le_NoDup (l : list nat) :
  StronglySorted le l -> NoDup l -> StronglySorted lt l.
Proof.
  induction 1 as [|x t Hs IH Hf]; intros Hnd; [constructor|].
  inversion Hnd as [|? ? Hx Ht]; subst.
  constructor; auto.
  rewrite Forall_forall in *; intros y Hy.
  specialize (Hf y Hy).
  assert (x <> y) by (intros ->; auto).
  lia.
Qed.

Section GroupFacts.

Context {D K : Type}.
Variable eq_dec : forall x y : K, {x = y} + {x <> y}.
Variable leb : K -> K -> bool.
Variable key : obs D -> K.

Lemma group_keys_Permutation (df : list (obs D)) :
  Permutation (group_keys eq_dec leb key df) (nodup eq_dec (map key df)).
Proof. apply isort_Permutation. Qed.

Lemma group_keys_NoDup (df : list (obs D)) :
  NoDup (group_keys eq_dec leb key df).
Proof.
  eapply Permutation_NoDup; [symmetry; apply group_keys_Permutation|].
  apply NoDup_nodup.
Qed.

Lemma group_keys_In (df : list (obs D)) (k : K) :
  In k (group_keys eq_dec leb key df) <-> In k (map key df).
Proof.
  rewrite <- (nodup_In eq_dec (map key df) k).
  split; apply Permutation_in;
    [|symmetry]; apply group_keys_Permutation.
Qed.

(** A row adds its alarms to the group of its own key and to no other. *)
Lemma sum_indicator (k0 : K) (a : Z) (ks : list K) :
  NoDup ks -> In k0 ks ->
  sum (map (fun k => if eq_dec k0 k then a else 0) ks) = a.
Proof.
  induction 1 as [|k t Hk Hnd IH]; intros Hin; [contradiction|].
  simpl. destruct Hin as [->|Hin].
  - destruct (eq_dec k0 k0); [|congruence].
    assert (sum (map (fun k => if eq_dec k0 k then a else 0) t) = 0); [|lia].
    clear IH. induction t as [|k' t' IHt]; simpl; auto.
    destruct (eq_dec k0 k') as [->|_].
    + exfalso; apply Hk; left; auto.
    + rewrite IHt; auto.
      * intros H; apply Hk; right; auto.
      * inversion Hnd; auto.
  - destruct (eq_dec k0 k) as [->|_]; [contradiction|].
    rewrite IH; auto.
Qed.

Lemma sum_groups_cons (r : obs D) (t : list (obs D)) (ks : list K) :
  sum (map (fun k => sum (group_of eq_dec key (r :: t) k)) ks)
  = sum (map (fun k => if eq_dec (key r) k then Alarms r else 0) ks)
    + sum (map (fun k => sum (group_of eq_dec key t k)) ks).
Proof.
  induction ks as [|k ks IH]; simpl; [reflexivity|].
  rewrite IH. unfold group_of at 1; simpl.
  destruct (eq_dec (key r) k); simpl; unfold group_of; lia.
Qed.

Lemma sum_groups (ks : list K) (df : list (obs D)) :
  NoDup ks -> (forall r, In r df -> In (key r) ks) ->
  sum (map (fun k => sum (group_of eq_dec key df k)) ks) = sum (map Alarms df).
Proof.
  intros Hnd; induction df as [|r t IH]; intros Hin.
  - unfold group_of; simpl. clear. induction ks; simpl; auto.
  - rewrite sum_groups_cons, sum_indicator, IH; auto.
    + intros; apply Hin; right; auto.
    + apply Hin; left; auto.
Qed.

(** The group sums add up to the sum of the whole column. *)
Lemma groupby_sum (df : list (obs D)) :
  sum (map (fun g => sum (snd g)) (groupby eq_dec leb key df))
  = sum (map Alarms df).
Proof.
  unfold groupby. rewrite map_map; simpl.
  apply sum_groups.
  - apply group_keys_NoDup.
  - intros r Hr. apply group_keys_In, in_map; auto.
Qed.

End GroupFacts.

(** ** Analyzer facts *)

Lemma set_Date_id {D : Type} (r : obs D) : set_Date (fun _ => Date r) r = r.
Proof. destruct r; reflexivity. Qed.

(** A long table of the data model has no row to drop. *)
Lemma dropna_id (df : LongTable) : dropna df = df.
Proof.
  induction df as [|r t IH]; [reflexivity|].
  change (dropna (r :: t)) with (set_Date (fun _ => Date r) r :: dropna t).
  rewrite IH, set_Date_id. reflexivity.
Qed.

Lemma dropna_with_dates (df : LongTable) : dropna (with_dates df) = df.
Proof.
  induction df as [|r t IH]; [reflexivity|].
  change (dropna (with_dates (r :: t)))
    with (set_Date (fun _ => Date r) (set_Date Some r) :: dropna (with_dates t)).
  rewrite IH. destruct r; reflexivity.
Qed.

Lemma daily_totals_dropna {D : Type} {HD : DateColumn D} (df : list (obs D)) :
  daily_totals_of df
  = map (fun g => (fst g, sum (snd g))) (groupby_Date (dropna df)).
Proof. reflexivity. Qed.

Lemma daily_totals_eq (df : LongTable) :
  daily_totals_of df = map (fun g => (fst g, sum (snd g))) (groupby_Date df).
Proof. rewrite daily_totals_dropna, dropna_id. reflexivity. Qed.

Lemma room_totals_eq {D : Type} {HD : DateColumn D} (df : list (obs D)) :
  room_totals_of df
  = sort_values Z.leb total_of false (map agg_totals (groupby_Room_Codes df)).
Proof. reflexivity. Qed.

Lemma room_stats_eq {D : Type} {HD : DateColumn D} (df : list (obs D)) :
  room_stats_of df = map agg_stats (groupby_Room_Codes df).
Proof. reflexivity. Qed.

Lemma room_totals_Permutation {D : Type} {HD : DateColumn D} (df : list (obs D)) :
  Permutation (room_totals_of df) (map agg_totals (groupby_Room_Codes df)).
Proof. rewrite room_totals_eq; apply sort_values_Permutation. Qed.

Lemma daily_totals_sum (df : LongTable) :
  sum (map snd (daily_totals_of df)) = sum (map Alarms df).
Proof.
  rewrite daily_totals_eq, map_map; simpl.
  apply (groupby_sum Nat.eq_dec Nat.leb Date).
Qed.

Lemma room_totals_sum {D : Type} {HD : DateColumn D} (df : list (obs D)) :
  sum (map total_of (room_totals_of df)) = sum (map Alarms df).
Proof.
  rewrite (sum_map_Permutation total_of _ _ (room_totals_Permutation df)).
  rewrite map_map; unfold total_of; simpl.
  apply (groupby_sum string_dec String.leb Room_Codes).
Qed.

Lemma daily_totals_dates (df : LongTable) :
  map fst (daily_totals_of df) = group_keys Nat.eq_dec Nat.leb Date df.
Proof.
  rewrite daily_totals_eq; unfold groupby_Date, groupby.
  rewrite !map_map; simpl; apply map_id.
Qed.

Lemma room_totals_length {D : Type} {HD : DateColumn D} (df : list (obs D)) :
  List.length (room_totals_of df)
  = List.length (nodup string_dec (map Room_Codes df)).
Proof.
  rewrite (Permutation_length (room_totals_Permutation df)).
  unfold groupby_Room_Codes, groupby; rewrite !length_map.
  apply Permutation_length, group_keys_Permutation.
Qed.

Lemma room_totals_sorted {D : Type} {HD : DateColumn D} (df : list (obs D)) :
  StronglySorted (fun a b => total_of b <= total_of a) (room_totals_of df).
Proof.
  rewrite room_totals_eq; unfold sort_values.
  apply (StronglySorted_rev (fun a b => total_of a <= total_of b)).
  apply (isort_sorted Z.leb total_of Z.le).
  - intros a b; apply Z.leb_le.
  - intros a b H; apply Z.leb_gt in H; lia.
  - intros a b c; apply Z.le_trans.
Qed.

Lemma daily_totals_empty (df : LongTable) :
  daily_totals_of df = [] -> df = [].
Proof.
  intros H. apply (f_equal (map fst)) in H.
  rewrite daily_totals_dates in H; simpl in H.
  destruct df as [|r t]; auto.
  assert (Hin : In (Date r) (group_keys Nat.eq_dec Nat.leb Date (r :: t)))
    by (apply group_keys_In; left; auto).
  rewrite H in Hin; contradiction.
Qed.

(** ** Claims about the analyzer and the summarizer *)

(** C2. The three aggregations agree: the sum of [Alarms] over the long
    table equals the sum of [total_alarms] over the room totals and the sum
    of [Alarms] over the daily totals. *)
Theorem aggregations_agree (df : LongTable) :
  sum (map Alarms df) = sum (map total_of (room_totals_of df)) /\
  sum (map Alarms df) = sum (map snd (daily_totals_of df)).
Proof.
  rewrite room_totals_sum, daily_totals_sum; auto.
Qed.

(** C6. The room totals are in descending order of total alarms: each row
    has at least the total of the row after it. *)
Theorem room_totals_descending (df : LongTable) (i : nat)
  (a b : string * RoomTotals.t) :
  nth_error (room_totals_of df) i = Some a ->
  nth_error (room_totals_of df) (S i) = Some b ->
  total_of a >= total_of b.
Proof.
  intros Ha Hb. apply Z.le_ge.
  exact (StronglySorted_nth_error _ _ (room_totals_sorted df) i a b Ha Hb).
Qed.

Lemma room_totals_descending_witness :
  nth_error (room_totals_of example_long) 0 = Some (agg_totals ("A", [3; 5])) /\
  nth_error (room_totals_of example_long) 1 = Some (agg_totals ("B", [0; 0])) /\
  total_of (agg_totals ("A", [3; 5])) >= total_of (agg_totals ("B", [0; 0])).
Proof.
  split; [reflexivity|]. split; [reflexivity|].
  apply (room_totals_descending example_long 0); reflexivity.
Defined.

(** C7. The daily totals have one row per distinct date of the long table,
    the rows are in ascending date order, and each carries the sum of the
    alarms of all rows of that date. *)
Theorem daily_totals_by_date (df : LongTable) :
  StronglySorted lt (map fst (daily_totals_of df)) /\
  Permutation (map fst (daily_totals_of df)) (nodup Nat.eq_dec (map Date df)) /\
  daily_totals_of df
  = map (fun d => (d, sum (map Alarms
                             (filter (fun r => Nat.eqb (Date r) d) df))))
        (map fst (daily_totals_of df)).
Proof.
  split; [|split].
  - rewrite daily_totals_dates.
    apply StronglySorted_le_NoDup; [|apply group_keys_NoDup].
    apply (isort_sorted Nat.leb (fun k => k) le).
    + intros a b; apply Nat.leb_le.
    + intros a b H; apply Nat.leb_gt in H; lia.
    + intros a b c; apply Nat.le_trans.
  - rewrite daily_totals_dates; apply group_keys_Permutation.
  - rewrite daily_totals_dates, daily_totals_eq.
    unfold groupby_Date, groupby; rewrite map_map; simpl.
    apply map_ext; intros d; f_equal; f_equal.
    unfold group_of; f_equal.
    apply filter_ext; intros r.
    destruct (Nat.eq_dec (Date r) d) as [->|Hn].
    + symmetry; apply Nat.eqb_refl.
    + symmetry; apply Nat.eqb_neq; auto.
Qed.

(** C3. Whenever the summarizer produces its record (it does for every
    non-empty long table), [total_alarms] is the sum of [Alarms] over the
    long table, the room totals are sorted descending by total alarms, and
    [top_rooms] lists the first min(5, R) room codes of these sorted room
    totals, R being the number of rooms. *)
Theorem insights_total_and_top_rooms (df : LongTable) :
  let R := List.length (nodup string_dec (map Room_Codes df)) in
  match insights_of df with
  | Ok ins =>
      Insights.total_alarms ins = sum (map Alarms df) /\
      StronglySorted (fun a b => total_of a >= total_of b) (room_totals_of df) /\
      List.length (Insights.top_rooms ins) = Nat.min 5 R /\
      Insights.top_rooms ins
      = firstn (Nat.min 5 R) (map fst (room_totals_of df))
  | Raise _ => df = []
  end.
Proof.
  intros R. unfold insights_of, generate_insights.
  destruct (series_max (map snd (daily_totals_of df))) as [m|] eqn:E;
    unfold int_of_max, bind;
    cbn [Insights.total_alarms Insights.top_rooms].
  - split; [apply room_totals_sum|].
    split.
    { eapply StronglySorted_impl; [|apply room_totals_sorted].
      intros a b Hab; apply Z.le_ge; exact Hab. }
    unfold head, R. rewrite <- room_totals_length.
    split.
    + rewrite length_map, length_firstn; auto.
    + rewrite firstn_map. f_equal.
      destruct (Nat.le_ge_cases 5 (List.length (room_totals_of df))) as [H|H].
      * rewrite Nat.min_l; auto.
      * rewrite Nat.min_r, !firstn_all2; auto.
  - apply daily_totals_empty.
    destruct (daily_totals_of df); [reflexivity|discriminate].
Qed.

(** C10. When the daily totals are not empty the record is produced and its
    daily average times the number of distinct dates is its total: the
    average is the total divided by the number of distinct dates. *)
Theorem average_is_total_over_days (df : LongTable) :
  daily_totals_of df <> [] ->
  let days := List.length (nodup Nat.eq_dec (map Date df)) in
  exists ins,
    insights_of df = Ok ins /\
    Insights.avg_daily_alarms ins
    = of_Q (Insights.total_alarms ins # Pos.of_nat days) /\
    ((Insights.total_alarms ins # Pos.of_nat days)
     * inject_Z (Z.of_nat days) == inject_Z (Insights.total_alarms ins))%Q.
Proof.
  intros Hne days.
  assert (Hlen : List.length (daily_totals_of df) = days).
  { rewrite <- (length_map fst), daily_totals_dates.
    apply Permutation_length, group_keys_Permutation. }
  unfold insights_of, generate_insights.
  destruct (daily_totals_of df) as [|p t] eqn:E; [congruence|].
  cbn [map series_max int_of_max bind].
  eexists; split; [reflexivity|].
  cbn [Insights.avg_daily_alarms Insights.total_alarms mean].
  rewrite room_totals_sum, <- daily_totals_sum, E.
  change (snd p :: map snd t) with (map snd (p :: t)).
  rewrite length_map, Hlen.
  split; [reflexivity|].
  assert (Hpos : (0 < days)%nat) by (rewrite <- Hlen; simpl; lia).
  generalize (sum (map snd (p :: t))); intros z.
  unfold Qeq, Qmult, inject_Z; cbn [Qnum Qden].
  rewrite Pos.mul_1_r.
  replace (Z.pos (Pos.of_nat days)) with (Z.of_nat days); [ring|].
  destruct days; [lia|]. rewrite <- Pos.of_nat_succ, Zpos_P_of_succ_nat; lia.
Qed.

Lemma average_is_total_over_days_witness :
  daily_totals_of example_long <> [] /\
  exists ins,
    insights_of example_long = Ok ins /\
    Insights.avg_daily_alarms ins = of_Q (Insights.total_alarms ins # 2) /\
    ((Insights.total_alarms ins # 2) * inject_Z 2
     == inject_Z (Insights.total_alarms ins))%Q.
Proof.
  split; [discriminate|].
  apply (average_is_total_over_days example_long); discriminate.
Defined.

(** ** Coefficient of variation *)

Lemma room_stats_In {D : Type} {HD : DateColumn D} (df : list (obs D)) (r : RoomStats.t) :
  In r (room_stats_of df) ->
  r = agg_stats (RoomStats.Room_Codes r, room_alarms df (RoomStats.Room_Codes r)).
Proof.
  rewrite room_stats_eq; unfold groupby_Room_Codes, groupby.
  rewrite map_map, in_map_iff; intros (k & <- & _); reflexivity.
Qed.

Lemma sum_nonneg (l : list Z) : Forall (fun x => 0 <= x) l -> 0 <= sum l.
Proof. induction 1; simpl; lia. Qed.

Lemma sum_zero_all_zero (l : list Z) :
  Forall (fun x => 0 <= x) l -> sum l = 0 -> Forall (fun x => x = 0) l.
Proof.
  induction 1 as [|x t Hx Ht IH]; simpl; intros Hs; constructor.
  - pose proof (sum_nonneg t Ht); lia.
  - apply IH. pose proof (sum_nonneg t Ht); lia.
Qed.

Lemma squares_nonneg (m : Q) (l : list Z) :
  (0 <= fold_right Qplus 0
          (map (fun x => (inject_Z x - m) * (inject_Z x - m)) l))%Q.
Proof.
  induction l as [|x t IH]; simpl; [apply Qle_refl|].
  apply (Qplus_le_compat 0 _ 0 _); auto.
  destruct (Qlt_le_dec (inject_Z x - m) 0) as [Hn|Hp].
  - setoid_replace ((inject_Z x - m) * (inject_Z x - m))%Q
      with ((- (inject_Z x - m)) * (- (inject_Z x - m)))%Q by ring.
    apply Qmult_le_0_compat; apply (Qopp_le_compat _ 0), Qlt_le_weak; auto.
  - apply Qmult_le_0_compat; auto.
Qed.

Lemma squares_zero (m : Q) (l : list Z) :
  (m == 0)%Q -> Forall (fun x => x = 0) l ->
  (fold_right Qplus 0
     (map (fun x => (inject_Z x - m) * (inject_Z x - m)) l) == 0)%Q.
Proof.
  intros Hm; induction 1 as [|x t Hx Ht IH]; simpl; [reflexivity|].
  subst x. rewrite IH, Hm. reflexivity.
Qed.

Lemma var_nonneg (l : list Z) : Qle_bool 0 (var l) = true.
Proof.
  apply Qle_bool_iff. unfold var, Qdiv.
  apply Qmult_le_0_compat; [apply squares_nonneg|].
  apply Qinv_le_0_compat.
  change 0%Q with (inject_Z 0); rewrite <- Zle_Qle; lia.
Qed.

Lemma std_of_two (l : list Z) :
  (2 <= List.length l)%nat -> std l = Real 1 (var l).
Proof.
  intros H. unfold std, fsqrt.
  destruct (List.length l <? 2)%nat eqn:E; [apply Nat.ltb_lt in E; lia|].
  rewrite var_nonneg; reflexivity.
Qed.

Lemma std_cases (l : list Z) : std l = NaN \/ std l = Real 1 (var l).
Proof.
  unfold std, fsqrt.
  destruct (List.length l <? 2)%nat; auto.
  rewrite var_nonneg; auto.
Qed.

Lemma mean_zero_iff (l : list Z) :
  is_zero (mean l) = true <-> l <> [] /\ sum l = 0.
Proof.
  destruct l as [|x t]; [simpl; split; [discriminate|intros [[] _]; auto]|].
  unfold mean, of_Q, is_zero.
  generalize (sum (x :: t)) (Pos.of_nat (List.length (x :: t))); intros z p.
  rewrite orb_false_r.
  rewrite Qeq_bool_iff. unfold Qeq; simpl. rewrite Z.mul_1_r.
  split; [intros ->; split; [discriminate|reflexivity]|intros [_ ->]; reflexivity].
Qed.

Lemma var_zero (l : list Z) :
  Forall (fun x => 0 <= x) l -> sum l = 0 -> Qeq_bool (var l) 0 = true.
Proof.
  intros Hpos Hs. apply Qeq_bool_iff. unfold var, Qdiv.
  rewrite squares_zero; [ring| |apply sum_zero_all_zero; auto].
  rewrite Hs; reflexivity.
Qed.

Lemma cv_not_finite (l : list Z) :
  is_zero (mean l) = true -> is_finite (fdiv (std l) (mean l)) = false.
Proof.
  intros Hz.
  destruct (mean l) as [| |m s] eqn:Em; try discriminate.
  destruct (std_cases l) as [->| ->]; [reflexivity|].
  unfold fdiv; rewrite Hz.
  destruct (is_zero (Real 1 (var l))); reflexivity.
Qed.

Lemma cv_finite_of_two (l : list Z) :
  (2 <= List.length l)%nat -> is_zero (mean l) = false ->
  is_finite (fdiv (std l) (mean l)) = true.
Proof.
  intros H2 Hz. rewrite std_of_two by auto.
  destruct l as [|x t]; [simpl in H2; lia|].
  unfold mean, of_Q in *. unfold fdiv; rewrite Hz; reflexivity.
Qed.

Lemma cv_nan_of_zero_mean (l : list Z) :
  (2 <= List.length l)%nat -> Forall (fun x => 0 <= x) l ->
  is_zero (mean l) = true -> is_nan (fdiv (std l) (mean l)) = true.
Proof.
  intros H2 Hpos Hz. rewrite std_of_two by auto.
  pose proof (proj1 (mean_zero_iff l) Hz) as [_ Hs].
  destruct (mean l) as [| |m s] eqn:Em; try discriminate.
  unfold fdiv; rewrite Hz.
  unfold is_zero at 1. rewrite (var_zero l Hpos Hs), orb_true_r; reflexivity.
Qed.

(** C4, amended.  A room whose mean is zero never has a finite coefficient of
    variation.  For a room with at least two daily observations the
    coefficient is not finite exactly when the mean is zero, and, the counts
    being non-negative, it is NaN exactly when the mean is zero. *)
Theorem cv_undefined_iff_mean_zero (df : LongTable) (r : RoomStats.t) :
  In r (room_stats_of df) ->
  let counts := room_alarms df (RoomStats.Room_Codes r) in
  (is_zero (RoomStats.mean r) = true -> is_finite (RoomStats.cv r) = false) /\
  ((2 <= List.length counts)%nat ->
   (is_finite (RoomStats.cv r) = false <-> is_zero (RoomStats.mean r) = true) /\
   (Forall (fun x => 0 <= x) counts ->
    (is_nan (RoomStats.cv r) = true <-> is_zero (RoomStats.mean r) = true))).
Proof.
  intros Hin counts.
  rewrite (room_stats_In df r Hin); fold counts.
  unfold agg_stats; cbn [RoomStats.mean RoomStats.cv snd].
  split; [apply cv_not_finite|].
  intros H2; split; [|intros Hpos]; split.
  - intros Hf. destruct (is_zero (mean counts)) eqn:Ez; auto.
    rewrite cv_finite_of_two in Hf by auto; discriminate.
  - apply cv_not_finite.
  - intros Hn. destruct (is_zero (mean counts)) eqn:Ez; auto.
    pose proof (cv_finite_of_two counts H2 Ez) as Hf.
    destruct (fdiv (std counts) (mean counts)); discriminate.
  - apply cv_nan_of_zero_mean; auto.
Qed.

(** The row of the silent room B in the variability view of the example. *)
Lemma cv_undefined_iff_mean_zero_witness :
  let r := agg_stats ("B", [0; 0]) in
  In r (room_stats_of example_long) /\
  (2 <= List.length (room_alarms example_long "B"))%nat /\
  Forall (fun x => 0 <= x) (room_alarms example_long "B") /\
  is_zero (RoomStats.mean r) = true /\
  is_finite (RoomStats.cv r) = false /\
  (is_nan (RoomStats.cv r) = true <-> is_zero (RoomStats.mean r) = true).
Proof.
  intros r.
  assert (Hin : In r (room_stats_of example_long))
    by (right; left; reflexivity).
  assert (H2 : (2 <= List.length (room_alarms example_long "B"))%nat)
    by (vm_compute; lia).
  assert (Hpos : Forall (fun x => 0 <= x) (room_alarms example_long "B"))
    by (repeat constructor; discriminate).
  destruct (cv_undefined_iff_mean_zero example_long r Hin) as [Hz Hiff].
  destruct (Hiff H2) as [_ Hnan].
  split; [exact Hin|]. split; [exact H2|]. split; [exact Hpos|].
  split; [reflexivity|]. split; [apply Hz; reflexivity|exact (Hnan Hpos)].
Defined.

(** C4 as stated fails: a room observed on a single day has no sample
    standard deviation, so its coefficient of variation is NaN although its
    mean is not zero. *)
Lemma cv_undefined_counterexample :
  ~ (forall (df : LongTable) (r : RoomStats.t),
        In r (room_stats_of df) ->
        (is_nan (RoomStats.cv r) = true <-> is_zero (RoomStats.mean r) = true)).
Proof.
  intros H.
  specialize (H single_day_long (agg_stats ("A", [5])) (or_introl eq_refl)).
  destruct H as [H _]. specialize (H eq_refl). discriminate H.
Qed.

(** C5. A room whose coefficient of variation is NaN is not listed among
    the rooms with high variance. *)
Theorem nan_cv_not_high_variance (df : LongTable) (ins : Insights.t)
  (r : RoomStats.t) :
  insights_of df = Ok ins ->
  In r (room_stats_of df) ->
  is_nan (RoomStats.cv r) = true ->
  ~ In (RoomStats.Room_Codes r) (Insights.rooms_with_high_variance ins).
Proof.
  intros Hins Hin Hnan Hlisted.
  unfold insights_of, generate_insights in Hins.
  destruct (int_of_max _) as [m|e]; [|discriminate].
  unfold bind in Hins; injection Hins as <-.
  cbn [Insights.rooms_with_high_variance] in Hlisted.
  apply in_map_iff in Hlisted as (r' & Hcode & Hr').
  apply filter_In in Hr' as [Hin' Hgt].
  assert (r' = r) as ->.
  { rewrite (room_stats_In df r' Hin'), (room_stats_In df r Hin), Hcode.
    reflexivity. }
  destruct (RoomStats.cv r); discriminate.
Qed.

Lemma nan_cv_not_high_variance_witness :
  let r := agg_stats ("B", [0; 0]) in
  let ins := Insights.mk 8 (of_Q (8 # 2)) 5 ["A"; "B"] [] in
  insights_of example_long = Ok ins /\
  In r (room_stats_of example_long) /\
  is_nan (RoomStats.cv r) = true /\
  ~ In "B" (Insights.rooms_with_high_variance ins).
Proof.
  intros r ins.
  assert (Hins : insights_of example_long = Ok ins) by reflexivity.
  assert (Hin : In r (room_stats_of example_long))
    by (right; left; reflexivity).
  assert (Hnan : is_nan (RoomStats.cv r) = true) by reflexivity.
  split; [exact Hins|]. split; [exact Hin|]. split; [exact Hnan|].
  exact (nan_cv_not_high_variance example_long ins r Hins Hin Hnan).
Defined.

(** ** Reshaper facts *)

Lemma mapM_In {A B : Type} (f : A -> result B) (l : list A) (out : list B) (x : A) :
  mapM f l = Ok out -> In x l -> exists y, f x = Ok y /\ In y out.
Proof.
  intros H; apply mapM_Forall2 in H.
  induction H as [|a b l' out' Hab HF IH]; intros Hin; [contradiction|].
  destruct Hin as [->|Hin].
  - exists b; split; auto; left; auto.
  - destruct (IH Hin) as (y & Hy & Hiny); exists y; split; auto; right; auto.
Qed.

Lemma DataFrame_Ok (data df : Data) :
  DataFrame data = Ok df ->
  df = data /\
  List.length (data_Rooms data) = List.length (data_Room_Codes data) /\
  Forall (fun c => List.length (snd c) = List.length (data_Room_Codes data))
         (data_values data).
Proof.
  unfold DataFrame.
  destruct (Nat.eqb _ _ && forallb _ _) eqn:E; [|discriminate].
  intros H; injection H as <-.
  apply andb_prop in E as [E1 E2].
  split; [reflexivity|].
  split; [apply Nat.eqb_eq; auto|].
  rewrite forallb_forall in E2. rewrite Forall_forall.
  intros c Hc; apply Nat.eqb_eq; auto.
Qed.

Lemma get_column_In (name : string) (cols : list (string * list Z)) (vals : list Z) :
  get_column name cols = Ok vals -> In (name, vals) cols.
Proof.
  induction cols as [|[n v] rest IH]; simpl; [discriminate|].
  destruct (String.eqb_spec n name) as [->|Hn].
  - intros H; injection H as <-; left; auto.
  - intros H; right; auto.
Qed.

Lemma map_fst_combine {A B : Type} (l1 : list A) (l2 : list B) :
  List.length l1 = List.length l2 -> map fst (combine l1 l2) = l1.
Proof.
  revert l2; induction l1 as [|a t IH]; intros [|b u] H;
    simpl in *; try discriminate; auto.
  f_equal; apply IH; lia.
Qed.

Section ReshaperFacts.

Variable strptime : string -> option Timestamp.
Variable data : Data.

Hypothesis rooms_length : List.length (data_Rooms data) = List.length (data_Room_Codes data).
Hypothesis values_length :
  Forall (fun c => List.length (snd c) = List.length (data_Room_Codes data)) (data_values data).

(** The block of one variable has one row per room, in room order, each
    carrying the variable's name. *)
Lemma melt_var_block (var : string) (b : list (obs string)) :
  melt_var data var = Ok b ->
  map Room_Codes b = (data_Room_Codes data) /\ Forall (fun r => Date r = var) b.
Proof.
  unfold melt_var.
  destruct (get_column var (data_values data)) as [vals|e] eqn:E;
    [|discriminate].
  unfold bind; intros H; injection H as <-.
  apply get_column_In in E.
  rewrite Forall_forall in values_length.
  specialize (values_length _ E); simpl in values_length.
  split.
  - rewrite map_map.
    transitivity
      (map fst (map fst (combine (combine (data_Room_Codes data) (data_Rooms data)) vals))).
    + rewrite map_map; apply map_ext; intros [[c r] a]; reflexivity.
    + rewrite (map_fst_combine (combine (data_Room_Codes data) (data_Rooms data)) vals)
        by (rewrite length_combine, rooms_length, Nat.min_id; auto).
      apply map_fst_combine; auto.
  - rewrite Forall_forall; intros r Hr.
    apply in_map_iff in Hr as ([[c r'] a] & <- & _); reflexivity.
Qed.

(** Parsing a block whose rows all carry the token [tok]. *)
Lemma to_datetime_block (tok : string) (rows : list (obs string))
  (out : Frame) :
  Forall (fun r => Date r = tok) rows ->
  to_datetime strptime rows = Ok out ->
  map (fun r => (Room_Codes r, Some (Date r))) out
  = map (fun c => (c, parse_token strptime tok)) (map Room_Codes rows).
Proof.
  unfold to_datetime.
  intros Htok; revert out; induction Htok as [|r t Hr Ht IH]; intros out H;
    simpl in H.
  - injection H as <-; reflexivity.
  - rewrite Hr in H.
    destruct (parse_token strptime tok) as [d|]; [|discriminate].
    unfold bind in H at 1.
    destruct (mapM _ t) as [ys|e]; [|discriminate].
    unfold bind in H; injection H as <-.
    simpl. rewrite (IH ys eq_refl). reflexivity.
Qed.

(** The keys of the long table, one block of rooms per day column. *)
Lemma reshape_keys (vars : list string) (blocks : list (list (obs string)))
  (out : Frame) :
  mapM (melt_var data) vars = Ok blocks ->
  to_datetime strptime (map (set_Date day_token) (List.concat blocks)) = Ok out ->
  map (fun r => (Room_Codes r, Some (Date r))) out
  = flat_map (fun v => map (fun c => (c, parse_token strptime (day_token v)))
                           (data_Room_Codes data)) vars.
Proof.
  revert blocks out; induction vars as [|v vs IH]; intros blocks out Hm Hp;
    simpl in Hm.
  - injection Hm as <-. simpl in Hp. injection Hp as <-. reflexivity.
  - destruct (melt_var data v) as [b|e] eqn:Eb; [|discriminate].
    unfold bind in Hm at 1.
    destruct (mapM (melt_var data) vs) as [bs|e] eqn:Ebs; [|discriminate].
    unfold bind in Hm; injection Hm as <-.
    simpl in Hp. rewrite map_app in Hp.
    apply mapM_app in Hp as (o1 & o2 & H1 & H2 & ->).
    destruct (melt_var_block v b Eb) as [Hcodes Hdate].
    rewrite map_app; simpl. f_equal.
    + rewrite (to_datetime_block (day_token v)
                 (map (set_Date day_token) b) o1); auto.
      * f_equal. rewrite map_map. exact Hcodes.
      * rewrite Forall_map; eapply Forall_impl; [|exact Hdate].
        intros r Hr; cbn [set_Date Date]; rewrite Hr; reflexivity.
    + apply (IH bs o2); auto.
Qed.

End ReshaperFacts.

Lemma NoDup_blocks {A B C : Type} (g : A -> C) (codes : list B) (vars : list A) :
  NoDup codes -> NoDup (map g vars) ->
  NoDup (flat_map (fun v => map (fun c => (c, g v)) codes) vars).
Proof.
  intros Hc; induction vars as [|v vs IH]; simpl; intros Hv; [constructor|].
  inversion Hv as [|? ? Hnin Hvs]; subst.
  apply NoDup_app; auto.
  - clear - Hc. induction Hc as [|c t Hn Ht IHt]; simpl; constructor; auto.
    rewrite in_map_iff; intros (c' & Heq & Hin); injection Heq as ->; auto.
  - intros [c d] H1 H2.
    apply in_map_iff in H1 as (c1 & Heq & _); injection Heq as _ <-.
    apply in_flat_map in H2 as (v' & Hv' & Hin).
    apply in_map_iff in Hin as (c2 & Heq & _); injection Heq as _ Hg.
    apply Hnin. rewrite <- Hg. apply in_map; auto.
Qed.

Lemma length_blocks {A B C : Type} (g : A -> C) (codes : list B) (vars : list A) :
  List.length (flat_map (fun v => map (fun c => (c, g v)) codes) vars)
  = (List.length codes * List.length vars)%nat.
Proof.
  induction vars as [|v vs IH]; simpl; [lia|].
  rewrite length_app, length_map, IH; lia.
Qed.

Lemma load_Ok_inv (strptime : string -> option Timestamp) (data : Data)
  (df : Frame) :
  load_and_process_data strptime data = Ok df ->
  List.length (data_Rooms data) = List.length (data_Room_Codes data) /\
  Forall (fun c => List.length (snd c) = List.length (data_Room_Codes data))
         (data_values data) /\
  existsb (String.eqb "Alarms") (columns data) = false /\
  exists blocks,
    mapM (melt_var data) (value_vars_of data) = Ok blocks /\
    to_datetime strptime (map (set_Date day_token) (List.concat blocks)) = Ok df.
Proof.
  unfold load_and_process_data.
  destruct (DataFrame data) as [df0|e] eqn:E0; [|discriminate].
  apply DataFrame_Ok in E0 as (-> & Hrooms & Hvals).
  unfold bind at 1. unfold melt.
  destruct (existsb (String.eqb "Alarms") (columns data)); [discriminate|].
  destruct (mapM (melt_var data) (value_vars_of data)) as [blocks|e] eqn:Em;
    [|discriminate].
  unfold bind. intros Hp. repeat split; auto. exists blocks; auto.
Qed.

Lemma load_keys (strptime : string -> option Timestamp) (data : Data)
  (df : Frame) :
  load_and_process_data strptime data = Ok df ->
  map (fun r => (Room_Codes r, Some (Date r))) df
  = flat_map (fun v => map (fun c => (c, parse_token strptime (day_token v)))
                           (data_Room_Codes data))
             (value_vars_of data).
Proof.
  intros Hload.
  destruct (load_Ok_inv _ _ _ Hload) as (Hrooms & Hvals & _ & blocks & Hm & Hp).
  eapply reshape_keys; eauto.
Qed.

Lemma load_length (strptime : string -> option Timestamp) (data : Data)
  (df : Frame) :
  load_and_process_data strptime data = Ok df ->
  List.length df
  = (List.length (data_Room_Codes data) * List.length (value_vars_of data))%nat.
Proof.
  intros Hload.
  rewrite <- (length_map (fun r => (Room_Codes r, Some (Date r)))).
  rewrite (load_keys strptime data df Hload). apply length_blocks.
Qed.

Lemma load_keys_NoDup (strptime : string -> option Timestamp) (data : Data)
  (df : Frame) :
  load_and_process_data strptime data = Ok df ->
  NoDup (data_Room_Codes data) ->
  NoDup (map (fun col => parse_token strptime (day_token col))
             (value_vars_of data)) ->
  NoDup (map (fun r => (Room_Codes r, Date r)) df).
Proof.
  intros Hload Hc Hd.
  apply (NoDup_map_inv (fun p => (fst p, Some (snd p)))).
  rewrite map_map; cbn [fst snd]. rewrite (load_keys strptime data df Hload).
  apply NoDup_blocks; auto.
Qed.

(** With at least one room, every day token of a loaded table was read. *)
Lemma load_tokens_read (strptime : string -> option Timestamp) (data : Data)
  (df : Frame) (col : string) :
  load_and_process_data strptime data = Ok df ->
  data_Room_Codes data <> [] ->
  In col (value_vars_of data) ->
  exists d, parse_token strptime (day_token col) = Some d.
Proof.
  intros Hload Hrooms Hcol.
  pose proof (load_keys strptime data df Hload) as Hk.
  destruct (data_Room_Codes data) as [|c cs] eqn:Ec; [congruence|].
  assert (Hin : In (c, parse_token strptime (day_token col))
                   (map (fun r => (Room_Codes r, Some (Date r))) df)).
  { rewrite Hk. apply in_flat_map. exists col; split; auto. left; auto. }
  apply in_map_iff in Hin as (r & Heq & _).
  injection Heq as _ Heq. eauto.
Qed.

(** With at least one day column, the rooms of the long table are the rooms
    of the wide table. *)
Lemma long_table_rooms (strptime : string -> option Timestamp) (data : Data)
  (df : Frame) :
  load_and_process_data strptime data = Ok df ->
  value_vars_of data <> [] ->
  NoDup (data_Room_Codes data) ->
  List.length (nodup string_dec (map Room_Codes df))
  = List.length (data_Room_Codes data).
Proof.
  intros Hload Hvars Hc.
  apply Permutation_length, NoDup_Permutation; auto; [apply NoDup_nodup|].
  intros c. rewrite nodup_In.
  replace (map Room_Codes df)
    with (map fst (map (fun r => (Room_Codes r, Some (Date r))) df))
    by (rewrite map_map; reflexivity).
  rewrite (load_keys strptime data df Hload).
  rewrite in_map_iff. split.
  - intros ([c' d] & <- & Hin).
    apply in_flat_map in Hin as (v & _ & Hin).
    apply in_map_iff in Hin as (c2 & Heq & Hin2); injection Heq as <- _; auto.
  - intros Hin. destruct (value_vars_of data) as [|v vs]; [congruence|].
    exists (c, parse_token strptime (day_token v)); split; auto.
    simpl; apply in_or_app; left.
    apply (in_map (fun c0 => (c0, parse_token strptime (day_token v)))); auto.
Qed.

Lemma value_vars_of_eq (data : Data) :
  value_vars_of data = filter (contains "Count_") (map fst (data_values data)).
Proof. reflexivity. Qed.

Lemma value_vars_In (data : Data) (col : string) :
  In col (value_vars_of data) ->
  contains "Count_" col = true /\ In col (map fst (data_values data)).
Proof.
  rewrite value_vars_of_eq, filter_In; tauto.
Qed.

(** ** The day-of-month parser *)

Lemma digit_of_inv (c : ascii) (n : nat) :
  digit_of c = Some n -> nat_of_ascii c = (n + 48)%nat /\ (n <= 9)%nat.
Proof.
  unfold digit_of.
  destruct ((48 <=? nat_of_ascii c)%nat && (nat_of_ascii c <=? 57)%nat) eqn:E;
    [|discriminate].
  apply andb_prop in E as [E1 E2].
  apply Nat.leb_le in E1, E2. intros H; injection H as <-. lia.
Qed.

Lemma digit_of_inj (a b : ascii) (n : nat) :
  digit_of a = Some n -> digit_of b = Some n -> a = b.
Proof.
  intros Ha Hb.
  apply digit_of_inv in Ha as [Ha _]. apply digit_of_inv in Hb as [Hb _].
  rewrite <- (ascii_nat_embedding a), <- (ascii_nat_embedding b), Ha, Hb.
  reflexivity.
Qed.

(** What a token of a given encoding is parsed to. *)
Lemma strptime_d_encoded (tok : string) (e : encoding) (d : Timestamp) :
  encoding_of tok = Some e ->
  strptime_d tok = Some d ->
  match e with
  | OneDigit => exists a, tok = String a EmptyString /\ digit_of a = Some d
  | SpacePadded =>
      exists b, tok = String " " (String b EmptyString) /\ digit_of b = Some d
  | TwoDigits =>
      exists a b x y,
        tok = String a (String b EmptyString) /\
        digit_of a = Some x /\ digit_of b = Some y /\ d = (10 * x + y)%nat
  end.
Proof.
  destruct tok as [|a [|b [|c t]]]; try discriminate.
  - cbn [encoding_of strptime_d].
    destruct (digit_of a) as [[|n]|] eqn:Ea; try discriminate.
    intros He Hd; injection He as <-; injection Hd as <-. eauto.
  - cbn [encoding_of strptime_d].
    destruct (digit_of b) as [y|] eqn:Eb; [|discriminate].
    destruct (Ascii.eqb_spec a " ") as [->|Hsp].
    + intros He; injection He as <-. cbn [orb].
      destruct y; [discriminate|]. intros Hd; injection Hd as <-. eauto.
    + destruct (digit_of a) as [x|] eqn:Ea; [|discriminate].
      intros He; injection He as <-. cbn [orb].
      destruct (Ascii.eqb_spec a "0") as [->|H0].
      * destruct y; [discriminate|]. intros Hd; injection Hd as <-.
        exists "0"%char, b, 0%nat, (S y). repeat split; auto.
      * destruct x as [|[|[|[|x]]]]; try discriminate.
        -- intros Hd; injection Hd as <-. exists a, b, 1%nat, y; auto.
        -- intros Hd; injection Hd as <-. exists a, b, 2%nat, y; auto.
        -- destruct (y <=? 1)%nat; [|discriminate].
           intros Hd; injection Hd as <-. exists a, b, 3%nat, y; auto.
Qed.

(** Two tokens of the same encoding that denote the same day are equal. *)
Lemma strptime_d_inj (t1 t2 : string) (e : encoding) (d : Timestamp) :
  encoding_of t1 = Some e -> encoding_of t2 = Some e ->
  strptime_d t1 = Some d -> strptime_d t2 = Some d -> t1 = t2.
Proof.
  intros He1 He2 Hd1 Hd2.
  pose proof (strptime_d_encoded t1 e d He1 Hd1) as H1.
  pose proof (strptime_d_encoded t2 e d He2 Hd2) as H2.
  destruct e.
  - destruct H1 as (a1 & -> & Ha1). destruct H2 as (a2 & -> & Ha2).
    f_equal. eapply digit_of_inj; eauto.
  - destruct H1 as (a1 & b1 & x1 & y1 & -> & Ha1 & Hb1 & Hd).
    destruct H2 as (a2 & b2 & x2 & y2 & -> & Ha2 & Hb2 & Hd').
    pose proof (digit_of_inv _ _ Hb1) as [_ Hy1].
    pose proof (digit_of_inv _ _ Hb2) as [_ Hy2].
    assert (x1 = x2 /\ y1 = y2) as [<- <-] by lia.
    f_equal; [|f_equal]; eapply digit_of_inj; eauto.
  - destruct H1 as (b1 & -> & Hb1). destruct H2 as (b2 & -> & Hb2).
    do 2 f_equal. eapply digit_of_inj; eauto.
Qed.

Lemma is_missing_length (tok : string) :
  is_missing tok = true ->
  String.length tok = 0%nat \/ String.length tok = 3%nat.
Proof.
  unfold is_missing. intros H. apply orb_prop in H as [H|H].
  - apply String.eqb_eq in H; subst; auto.
  - apply existsb_exists in H as (s & Hs & Heq).
    apply String.eqb_eq in Heq; subst s.
    simpl in Hs. intuition (subst; auto).
Qed.

Lemma encoded_not_missing (tok : string) (e : encoding) :
  encoding_of tok = Some e -> is_missing tok = false.
Proof.
  intros He. destruct (is_missing tok) eqn:Em; auto.
  apply is_missing_length in Em.
  destruct tok as [|a [|b [|c t]]]; try discriminate; simpl in Em; lia.
Qed.

Lemma NoDup_map_injective {A B : Type} (f : A -> B) (l : list A) :
  (forall x y, In x l -> In y l -> f x = f y -> x = y) ->
  NoDup l -> NoDup (map f l).
Proof.
  intros Hinj; induction 1 as [|x t Hx Hnd IH]; simpl; constructor.
  - intros Hin. apply in_map_iff in Hin as (y & Heq & Hy).
    assert (y = x) by (apply Hinj; auto; [right|left]; auto).
    subst; contradiction.
  - apply IH. intros; apply Hinj; auto; right; auto.
Qed.

(** ** Claims about the reshaper *)

(** C1. For a wide table of the data model (pairwise distinct room codes;
    pairwise distinct column names, the day columns named [Count_] followed
    by their day token; all day tokens in the same day-of-month encoding)
    with R rooms and D day columns, the long table the reshaper produces
    has exactly R x D rows and no two of them share the same
    (Room_Codes, Date) pair. *)
Theorem long_table_rows_and_keys (data : Data) (df : Frame) :
  load_and_process_data strptime_d data = Ok df ->
  NoDup (data_Room_Codes data) ->
  NoDup (map fst (data_values data)) ->
  (forall col, In col (value_vars_of data) ->
               col = String.append "Count_" (day_token col)) ->
  (exists e, forall col, In col (value_vars_of data) ->
                         encoding_of (day_token col) = Some e) ->
  List.length df
  = (List.length (data_Room_Codes data) * List.length (value_vars_of data))%nat /\
  NoDup (map (fun r => (Room_Codes r, Date r)) df).
Proof.
  intros Hload Hcodes Hnames Hform [e Henc].
  pose proof (load_length strptime_d data df Hload) as Hlen.
  split; [exact Hlen|].
  destruct (data_Room_Codes data) as [|c0 cs] eqn:Ec.
  { simpl in Hlen. destruct df; [constructor|discriminate]. }
  rewrite <- Ec in *.
  assert (Hrooms : data_Room_Codes data <> []) by (rewrite Ec; discriminate).
  apply (load_keys_NoDup strptime_d data df Hload Hcodes).
  apply NoDup_map_injective.
  - intros c1 c2 H1 H2 Heq.
    destruct (load_tokens_read strptime_d data df c1 Hload Hrooms H1) as [d1 Hd1].
    destruct (load_tokens_read strptime_d data df c2 Hload Hrooms H2) as [d2 Hd2].
    rewrite Hd1, Hd2 in Heq. injection Heq as <-.
    unfold parse_token in Hd1, Hd2.
    rewrite (encoded_not_missing _ e (Henc c1 H1)) in Hd1.
    rewrite (encoded_not_missing _ e (Henc c2 H2)) in Hd2.
    destruct (strptime_d (day_token c1)) as [t1|] eqn:E1; [|discriminate].
    destruct (strptime_d (day_token c2)) as [t2|] eqn:E2; [|discriminate].
    simpl in Hd1, Hd2. rewrite <- Hd2 in Hd1. injection Hd1 as ->.
    rewrite (Hform c1 H1), (Hform c2 H2). f_equal.
    exact (strptime_d_inj _ _ e t2 (Henc c1 H1) (Henc c2 H2) E1 E2).
  - rewrite value_vars_of_eq. apply NoDup_filter; auto.
Qed.

Lemma long_table_rows_and_keys_witness :
  load_and_process_data strptime_d example_data = Ok (with_dates example_long) /\
  NoDup (data_Room_Codes example_data) /\
  NoDup (map fst (data_values example_data)) /\
  (forall col, In col (value_vars_of example_data) ->
               col = String.append "Count_" (day_token col)) /\
  (forall col, In col (value_vars_of example_data) ->
               encoding_of (day_token col) = Some TwoDigits) /\
  List.length (with_dates example_long) = (2 * 2)%nat /\
  NoDup (map (fun r => (Room_Codes r, Date r)) (with_dates example_long)).
Proof.
  assert (Hload : load_and_process_data strptime_d example_data
                  = Ok (with_dates example_long)) by reflexivity.
  assert (Hc : NoDup (data_Room_Codes example_data)).
  { repeat constructor; simpl; intuition discriminate. }
  assert (Hn : NoDup (map fst (data_values example_data))).
  { repeat constructor; simpl; intuition discriminate. }
  assert (Hf : forall col, In col (value_vars_of example_data) ->
                           col = String.append "Count_" (day_token col)).
  { intros col [<-|[<-|[]]]; reflexivity. }
  assert (He : forall col, In col (value_vars_of example_data) ->
                           encoding_of (day_token col) = Some TwoDigits).
  { intros col [<-|[<-|[]]]; reflexivity. }
  destruct (long_table_rows_and_keys example_data (with_dates example_long)
              Hload Hc Hn Hf (ex_intro _ TwoDigits He)) as [Hlen Hkeys].
  split; [exact Hload|]. split; [exact Hc|]. split; [exact Hn|].
  split; [exact Hf|]. split; [exact He|].
  split; [exact Hlen|exact Hkeys].
Defined.

(** The shared encoding matters: [Count_1] and [Count_01] are different
    columns that denote the same day. *)
Example mixed_encodings_ex :
  load_and_process_data strptime_d same_day_data
  = Ok [mkObs "A" "Room A" (Some 1%nat) 2; mkObs "A" "Room A" (Some 1%nat) 3].
Proof. reflexivity. Qed.

(** C9, amended.  When the table has at least one room and one of its day
    columns has a token that is not parseable as a day of month and is not
    one of the tokens read as a missing date, the reshaper raises, the error
    leaves [main], and no figure or insights are produced. *)
Theorem bad_day_token_aborts (strptime : string -> option Timestamp)
  (data : Data) (col : string) :
  data_Room_Codes data <> [] ->
  In col (value_vars_of data) ->
  is_missing (day_token col) = false ->
  strptime (day_token col) = None ->
  exists e,
    load_and_process_data strptime data = Raise e /\
    forall seaborn_style, main strptime seaborn_style data = Raise e.
Proof.
  intros Hrooms Hcol Hmiss Hbad.
  assert (Hload : exists e, load_and_process_data strptime data = Raise e).
  { unfold load_and_process_data.
    destruct (DataFrame data) as [df0|e] eqn:E0; [|simpl; eauto].
    apply DataFrame_Ok in E0 as (-> & Hlen & Hvals).
    unfold bind at 1. unfold melt.
    destruct (existsb (String.eqb "Alarms") (columns data)); [simpl; eauto|].
    destruct (mapM (melt_var data) (value_vars_of data)) as [blocks|e] eqn:Em;
      [|simpl; eauto].
    unfold bind.
    destruct (mapM_In _ _ _ col Em Hcol) as (b & Hb & Hin).
    destruct (melt_var_block data Hlen Hvals col b Hb) as [Hcodes Hdate].
    destruct b as [|r t].
    { simpl in Hcodes; symmetry in Hcodes; contradiction. }
    inversion Hdate as [|? ? Hr _]; subst.
    apply (mapM_raise_In _ _ (set_Date day_token r) ValueError).
    - apply in_map, in_concat. exists (r :: t); split; auto; left; auto.
    - cbn [set_Date Date]. unfold parse_token.
      rewrite Hmiss, Hbad; reflexivity. }
  destruct Hload as [e He]. exists e; split; auto.
  intros style. unfold main; rewrite He; reflexivity.
Qed.

Lemma bad_day_token_aborts_witness :
  data_Room_Codes (mkData ["A"] ["Room A"] [("Count_xx", [1])]) <> [] /\
  In "Count_xx" (value_vars_of (mkData ["A"] ["Room A"] [("Count_xx", [1])])) /\
  is_missing (day_token "Count_xx") = false /\
  strptime_d (day_token "Count_xx") = None /\
  exists e,
    load_and_process_data strptime_d
      (mkData ["A"] ["Room A"] [("Count_xx", [1])]) = Raise e /\
    forall seaborn_style,
      main strptime_d seaborn_style (mkData ["A"] ["Room A"] [("Count_xx", [1])])
      = Raise e.
Proof.
  assert (H1 : data_Room_Codes (mkData ["A"] ["Room A"] [("Count_xx", [1])]) <> [])
    by discriminate.
  assert (H2 : In "Count_xx"
                 (value_vars_of (mkData ["A"] ["Room A"] [("Count_xx", [1])])))
    by (left; reflexivity).
  assert (H3 : is_missing (day_token "Count_xx") = false) by reflexivity.
  assert (H4 : strptime_d (day_token "Count_xx") = None) by reflexivity.
  split; [exact H1|]. split; [exact H2|]. split; [exact H3|]. split; [exact H4|].
  exact (bad_day_token_aborts strptime_d _ "Count_xx" H1 H2 H3 H4).
Defined.

(** C9 as stated fails, in two ways.  A table without rooms has nothing to
    parse, so the reshaper returns an empty long table whatever the column
    is called; and with a room, the empty token of a column named [Count_],
    which is no day of month, is read as a missing date (NaT) and the
    reshaper returns the row.  Neither of the two conditions of the amended
    claim can be left out. *)
Lemma bad_day_token_counterexample :
  ~ (forall (data : Data) (col : string),
        In col (value_vars_of data) ->
        strptime_d (day_token col) = None ->
        exists e, load_and_process_data strptime_d data = Raise e) /\
  ~ (forall (data : Data) (col : string),
        In col (value_vars_of data) ->
        is_missing (day_token col) = false ->
        strptime_d (day_token col) = None ->
        exists e, load_and_process_data strptime_d data = Raise e) /\
  ~ (forall (data : Data) (col : string),
        data_Room_Codes data <> [] ->
        In col (value_vars_of data) ->
        strptime_d (day_token col) = None ->
        exists e, load_and_process_data strptime_d data = Raise e).
Proof.
  split; [|split]; intros H.
  - destruct (H no_rooms_data "Count_xx") as [e He];
      [left; reflexivity|reflexivity|discriminate He].
  - destruct (H no_rooms_data "Count_xx") as [e He];
      [left; reflexivity|reflexivity|reflexivity|discriminate He].
  - destruct (H empty_token_data "Count_") as [e He];
      [discriminate|left; reflexivity|reflexivity|discriminate He].
Qed.

(** ** The heat map *)

(** C8 fails on the code: with the twenty-one rooms A..U, whose totals grow
    from A to U, the heat map gets the rows of A..T, the first twenty room
    codes, while the twenty rooms with the highest totals are U..B. *)
Theorem heatmap_rows_not_top_twenty :
  exists df fig,
    load_and_process_data strptime_d twenty_one_rooms = Ok df /\
    create_visualizations true df (daily_totals_of df) (room_totals_of df)
    = Ok fig /\
    map fst (heatmap_rows fig) = firstn 20 letters /\
    map fst (head 20 (room_totals_of df)) = firstn 20 (rev letters) /\
    In "A" (map fst (heatmap_rows fig)) /\
    ~ In "A" (map fst (head 20 (room_totals_of df))) /\
    In "U" (map fst (head 20 (room_totals_of df))) /\
    ~ In "U" (map fst (heatmap_rows fig)).
Proof.
  destruct (load_and_process_data strptime_d twenty_one_rooms) as [df|e] eqn:El;
    [|vm_compute in El; discriminate].
  destruct (create_visualizations true df (daily_totals_of df)
              (room_totals_of df))
    as [fig|e'] eqn:Ef;
    [|vm_compute in El; injection El as <-; vm_compute in Ef; discriminate].
  exists df, fig.
  vm_compute in El; injection El as <-.
  vm_compute in Ef; injection Ef as <-.
  split; [reflexivity|]. split; [reflexivity|].
  split; [vm_compute; reflexivity|]. split; [vm_compute; reflexivity|].
  split; [vm_compute; tauto|].
  split; [vm_compute; intuition discriminate|].
  split; [vm_compute; tauto|].
  vm_compute; intuition discriminate.
Qed.

(** * Further properties of the pipeline *)

(** ** Reshaper: which rows, which values, when it succeeds *)

Lemma mapM_In_out {A B : Type} (f : A -> result B) (l : list A) (out : list B)
  (y : B) :
  mapM f l = Ok out -> In y out -> exists x, In x l /\ f x = Ok y.
Proof.
  intros H; apply mapM_Forall2 in H.
  induction H as [|a b l' out' Hab HF IH]; intros Hin; [contradiction|].
  destruct Hin as [->|Hin].
  - exists a; split; auto; left; auto.
  - destruct (IH Hin) as (x & Hx & Hfx); exists x; split; auto; right; auto.
Qed.

Lemma mapM_total {A B : Type} (f : A -> result B) (l : list A) :
  (forall x, In x l -> exists y, f x = Ok y) -> exists out, mapM f l = Ok out.
Proof.
  induction l as [|x t IH]; intros H; simpl; [eauto|].
  destruct (H x (or_introl eq_refl)) as [y ->].
  destruct IH as [ys ->]; [intros; apply H; right; auto|].
  simpl; eauto.
Qed.

Lemma mapM_ext_in {A B : Type} (f g : A -> result B) (l : list A) :
  (forall x, In x l -> f x = g x) -> mapM f l = mapM g l.
Proof.
  induction l as [|x t IH]; intros H; simpl; auto.
  rewrite (H x (or_introl eq_refl)), IH; auto.
  intros; apply H; right; auto.
Qed.

Lemma nth_error_combine {A B : Type} (l1 : list A) (l2 : list B) (i : nat)
  (a : A) (b : B) :
  nth_error (combine l1 l2) i = Some (a, b) ->
  nth_error l1 i = Some a /\ nth_error l2 i = Some b.
Proof.
  revert l2 i; induction l1 as [|x t IH]; intros [|y u] [|i] H;
    simpl in *; try discriminate.
  - injection H as <- <-; auto.
  - apply IH; auto.
Qed.

Lemma map_snd_combine {A B : Type} (l1 : list A) (l2 : list B) :
  List.length l1 = List.length l2 -> map snd (combine l1 l2) = l2.
Proof.
  revert l2; induction l1 as [|a t IH]; intros [|b u] H;
    simpl in *; try discriminate; auto.
  f_equal; apply IH; lia.
Qed.

Lemma get_column_total (name : string) (cols : list (string * list Z)) :
  In name (map fst cols) -> exists vals, get_column name cols = Ok vals.
Proof.
  induction cols as [|[n v] rest IH]; simpl; [contradiction|].
  destruct (String.eqb_spec n name) as [->|Hn]; [eauto|].
  intros [H|H]; [contradiction|auto].
Qed.

Lemma to_datetime_In (strptime : string -> option Timestamp)
  (rows : list (obs string)) (out : Frame) (r : obs Datetime) :
  to_datetime strptime rows = Ok out -> In r out ->
  exists r0, In r0 rows /\ parse_token strptime (Date r0) = Some (Date r) /\
             Room_Codes r0 = Room_Codes r /\ Rooms r0 = Rooms r /\
             Alarms r0 = Alarms r.
Proof.
  intros H Hin. destruct (mapM_In_out _ _ _ r H Hin) as (r0 & Hr0 & Hf).
  exists r0; split; auto.
  destruct (parse_token strptime (Date r0)) as [d|]; [|discriminate].
  injection Hf as <-; auto.
Qed.

Lemma to_datetime_Alarms (strptime : string -> option Timestamp)
  (rows : list (obs string)) (out : Frame) :
  to_datetime strptime rows = Ok out -> map Alarms out = map Alarms rows.
Proof.
  intros H; apply mapM_Forall2 in H.
  induction H as [|a b l' out' Hab HF IH]; simpl; auto.
  destruct (parse_token strptime (Date a)); [|discriminate].
  injection Hab as <-; simpl; f_equal; auto.
Qed.

(** X1. Every row of the long table is a cell of a day column: its alarms
    are the value of some column whose name contains [Count_], at the
    position of its room, and its date is what the token of that column is
    read as (a timestamp, or NaT for a missing-value token). *)
Theorem long_row_is_cell (strptime : string -> option Timestamp)
  (data : Data) (df : Frame) (r : obs Datetime) :
  load_and_process_data strptime data = Ok df ->
  In r df ->
  exists col vals i,
    In (col, vals) (data_values data) /\
    contains "Count_" col = true /\
    parse_token strptime (day_token col) = Some (Date r) /\
    nth_error (data_Room_Codes data) i = Some (Room_Codes r) /\
    nth_error (data_Rooms data) i = Some (Rooms r) /\
    nth_error vals i = Some (Alarms r).
Proof.
  intros Hload Hin.
  destruct (load_Ok_inv _ _ _ Hload) as (_ & _ & _ & blocks & Hm & Hp).
  destruct (to_datetime_In _ _ _ r Hp Hin) as (r0 & Hr0 & Hd & Hc & Hr & Ha).
  apply in_map_iff in Hr0 as (r1 & <- & Hr1).
  apply in_concat in Hr1 as (b & Hb & Hr1).
  destruct (mapM_In_out _ _ _ b Hm Hb) as (col & Hcol & Hmelt).
  unfold melt_var in Hmelt.
  destruct (get_column col (data_values data)) as [vals|e] eqn:Eg;
    [|discriminate].
  unfold bind in Hmelt; injection Hmelt as <-.
  apply in_map_iff in Hr1 as ([[c rm] a] & <- & Hcell).
  apply In_nth_error in Hcell as [i Hi].
  apply nth_error_combine in Hi as [Hi Hv].
  apply nth_error_combine in Hi as [Hi1 Hi2].
  cbn [set_Date Date Room_Codes Rooms Alarms] in *.
  exists col, vals, i. subst.
  repeat split; auto.
  - apply get_column_In; auto.
  - apply (value_vars_In data col Hcol).
Qed.

Lemma long_row_is_cell_witness :
  load_and_process_data strptime_d example_data = Ok (with_dates example_long) /\
  In (mkObs "A" "Room A" (Some 2%nat) 5) (with_dates example_long) /\
  exists col vals i,
    In (col, vals) (data_values example_data) /\
    contains "Count_" col = true /\
    parse_token strptime_d (day_token col) = Some (Some 2%nat) /\
    nth_error (data_Room_Codes example_data) i = Some "A" /\
    nth_error (data_Rooms example_data) i = Some "Room A" /\
    nth_error vals i = Some 5.
Proof.
  assert (Hload : load_and_process_data strptime_d example_data
                  = Ok (with_dates example_long)) by reflexivity.
  assert (Hin : In (mkObs "A" "Room A" (Some 2%nat) 5) (with_dates example_long))
    by (right; right; left; reflexivity).
  split; [exact Hload|]. split; [exact Hin|].
  exact (long_row_is_cell strptime_d example_data (with_dates example_long) _
           Hload Hin).
Defined.

Lemma melt_var_Alarms (data : Data) (var : string) (b : list (obs string))
  (vals : list Z) :
  List.length (data_Rooms data) = List.length (data_Room_Codes data) ->
  List.length vals = List.length (data_Room_Codes data) ->
  get_column var (data_values data) = Ok vals ->
  melt_var data var = Ok b -> map Alarms b = vals.
Proof.
  intros Hrooms Hvals Hg. unfold melt_var; rewrite Hg; unfold bind.
  intros H; injection H as <-.
  rewrite map_map.
  rewrite <- (map_snd_combine
                (combine (data_Room_Codes data) (data_Rooms data)) vals) at 2
    by (rewrite length_combine, Hrooms, Nat.min_id; auto).
  apply map_ext; intros [[c r] a]; reflexivity.
Qed.

Lemma get_column_NoDup (cols : list (string * list Z)) (name : string)
  (vals : list Z) :
  NoDup (map fst cols) -> In (name, vals) cols ->
  get_column name cols = Ok vals.
Proof.
  induction cols as [|[n v] rest IH]; simpl; intros Hnd Hin; [contradiction|].
  inversion Hnd as [|? ? Hn Hrest]; subst.
  destruct Hin as [Heq|Hin].
  - injection Heq as -> ->. rewrite String.eqb_refl; reflexivity.
  - destruct (String.eqb_spec n name) as [->|_]; auto.
    exfalso; apply Hn. apply (in_map fst) in Hin; auto.
Qed.

Lemma melt_values (data : Data) (cols : list (string * list Z))
  (blocks : list (list (obs string))) :
  List.length (data_Rooms data) = List.length (data_Room_Codes data) ->
  Forall (fun c => List.length (snd c) = List.length (data_Room_Codes data))
         (data_values data) ->
  NoDup (map fst (data_values data)) ->
  incl cols (data_values data) ->
  mapM (melt_var data) (filter (contains "Count_") (map fst cols)) = Ok blocks ->
  map Alarms (List.concat blocks)
  = flat_map snd (filter (fun c => contains "Count_" (fst c)) cols).
Proof.
  intros Hrooms Hvals Hnd.
  revert blocks; induction cols as [|[n v] rest IH]; intros blocks Hsub Hm;
    simpl in *.
  - injection Hm as <-; reflexivity.
  - assert (Hin : In (n, v) (data_values data)) by (apply Hsub; left; auto).
    assert (Hrest : incl rest (data_values data))
      by (intros x Hx; apply Hsub; right; auto).
    destruct (contains "Count_" n); [|apply IH; auto].
    simpl in Hm.
    destruct (melt_var data n) as [b|e] eqn:Eb; [|discriminate].
    unfold bind in Hm at 1.
    destruct (mapM (melt_var data) _) as [bs|e] eqn:Ebs; [|discriminate].
    unfold bind in Hm; injection Hm as <-.
    simpl. rewrite map_app. f_equal.
    + apply (melt_var_Alarms data n b v); auto.
      * rewrite Forall_forall in Hvals; apply (Hvals (n, v)); auto.
      * apply get_column_NoDup; auto.
    + apply IH; auto.
Qed.

(** X2. With pairwise distinct column names, the [Alarms] column of the
    long table is the concatenation of the day columns, in column order:
    the values are neither changed nor reordered. *)
Theorem long_table_values (strptime : string -> option Timestamp)
  (data : Data) (df : Frame) :
  NoDup (map fst (data_values data)) ->
  load_and_process_data strptime data = Ok df ->
  map Alarms df
  = flat_map snd (filter (fun c => contains "Count_" (fst c)) (data_values data)).
Proof.
  intros Hnd Hload.
  destruct (load_Ok_inv _ _ _ Hload) as (Hrooms & Hvals & _ & blocks & Hm & Hp).
  rewrite (to_datetime_Alarms _ _ _ Hp), map_map.
  change (map (fun x => Alarms (set_Date day_token x)) (List.concat blocks))
    with (map Alarms (List.concat blocks)).
  rewrite value_vars_of_eq in Hm.
  apply (melt_values data (data_values data) blocks); auto.
  apply incl_refl.
Qed.

Lemma long_table_values_witness :
  NoDup (map fst (data_values example_data)) /\
  load_and_process_data strptime_d example_data = Ok (with_dates example_long) /\
  map Alarms (with_dates example_long) = [3; 0; 5; 0].
Proof.
  assert (Hnd : NoDup (map fst (data_values example_data))).
  { repeat constructor; simpl; intuition discriminate. }
  assert (Hload : load_and_process_data strptime_d example_data
                  = Ok (with_dates example_long)) by reflexivity.
  split; [exact Hnd|]. split; [exact Hload|].
  exact (long_table_values strptime_d example_data (with_dates example_long)
           Hnd Hload).
Defined.

Lemma load_total (strptime : string -> option Timestamp) (data : Data) :
  List.length (data_Rooms data) = List.length (data_Room_Codes data) ->
  Forall (fun c => List.length (snd c) = List.length (data_Room_Codes data))
         (data_values data) ->
  ~ In "Alarms" (map fst (data_values data)) ->
  (forall col, In col (value_vars_of data) ->
               parse_token strptime (day_token col) <> None) ->
  exists df, load_and_process_data strptime data = Ok df.
Proof.
  intros Hr Hv Hal Htok.
  unfold load_and_process_data, DataFrame.
  rewrite Hr, Nat.eqb_refl.
  assert (Hall : forallb (fun c => Nat.eqb (List.length (snd c))
                                     (List.length (data_Room_Codes data)))
                         (data_values data) = true).
  { apply forallb_forall. rewrite Forall_forall in Hv.
    intros c Hc; apply Nat.eqb_eq; auto. }
  rewrite Hall; cbn [andb bind]. unfold melt.
  assert (Hno : existsb (String.eqb "Alarms") (columns data) = false).
  { unfold columns; cbn [existsb]. cbn [String.eqb Ascii.eqb Bool.eqb orb andb].
    destruct (existsb (String.eqb "Alarms") (map fst (data_values data))) eqn:E;
      auto.
    apply existsb_exists in E as (x & Hx & Heq).
    apply String.eqb_eq in Heq; subst x. contradiction. }
  rewrite Hno.
  destruct (mapM_total (melt_var data) (value_vars_of data)) as [blocks Hm].
  { intros col Hcol. apply value_vars_In in Hcol as [_ Hcol].
    destruct (get_column_total col _ Hcol) as [vals Hg].
    unfold melt_var; rewrite Hg; simpl; eauto. }
  rewrite Hm; cbn [bind].
  apply mapM_total. intros r0 Hr0.
  apply in_map_iff in Hr0 as (r1 & <- & Hr1).
  apply in_concat in Hr1 as (b & Hb & Hr1).
  destruct (mapM_In_out _ _ _ b Hm Hb) as (col & Hcol & Hmelt).
  destruct (melt_var_block data Hr Hv col b Hmelt) as [_ Hdate].
  rewrite Forall_forall in Hdate. specialize (Hdate r1 Hr1).
  cbn [set_Date Date]. rewrite Hdate.
  specialize (Htok col Hcol).
  destruct (parse_token strptime (day_token col)); [eauto|congruence].
Qed.

Lemma no_Alarms_column (data : Data) :
  existsb (String.eqb "Alarms") (columns data) = false ->
  ~ In "Alarms" (map fst (data_values data)).
Proof.
  intros H Hin.
  assert (Hex : existsb (String.eqb "Alarms") (columns data) = true).
  { apply existsb_exists. exists "Alarms"; split; [|reflexivity].
    right; right; exact Hin. }
  congruence.
Qed.

(** X3. For a table with at least one room the reshaper succeeds exactly
    when all columns have the length of [Room_Codes], no column is named
    [Alarms] (the name of the value column of the long table), and the
    token of every day column is a missing-value token or is accepted by
    the parser. *)
Theorem load_succeeds_iff (strptime : string -> option Timestamp) (data : Data) :
  data_Room_Codes data <> [] ->
  ((exists df, load_and_process_data strptime data = Ok df) <->
   (List.length (data_Rooms data) = List.length (data_Room_Codes data) /\
    Forall (fun c => List.length (snd c) = List.length (data_Room_Codes data))
           (data_values data) /\
    ~ In "Alarms" (map fst (data_values data)) /\
    forall col, In col (value_vars_of data) ->
                is_missing (day_token col) = true \/
                strptime (day_token col) <> None)).
Proof.
  intros Hrooms; split.
  - intros [df Hload].
    destruct (load_Ok_inv _ _ _ Hload) as (Hr & Hv & Hal & _).
    split; [exact Hr|]. split; [exact Hv|].
    split; [apply no_Alarms_column; exact Hal|].
    intros col Hcol.
    destruct (load_tokens_read strptime data df col Hload Hrooms Hcol)
      as [d Hd].
    unfold parse_token in Hd.
    destruct (is_missing (day_token col)); [left; reflexivity|right].
    destruct (strptime (day_token col)); [discriminate|discriminate Hd].
  - intros (Hr & Hv & Hal & Htok). apply load_total; auto.
    intros col Hcol. unfold parse_token.
    destruct (Htok col Hcol) as [Hm|Hp].
    + rewrite Hm; discriminate.
    + destruct (is_missing (day_token col)); [discriminate|].
      destruct (strptime (day_token col)); [discriminate|congruence].
Qed.

Lemma load_succeeds_iff_witness :
  data_Room_Codes example_data <> [] /\
  ((exists df, load_and_process_data strptime_d example_data = Ok df) <->
   (List.length (data_Rooms example_data)
    = List.length (data_Room_Codes example_data) /\
    Forall (fun c => List.length (snd c)
                     = List.length (data_Room_Codes example_data))
           (data_values example_data) /\
    ~ In "Alarms" (map fst (data_values example_data)) /\
    forall col, In col (value_vars_of example_data) ->
                is_missing (day_token col) = true \/
                strptime_d (day_token col) <> None)).
Proof.
  assert (H : data_Room_Codes example_data <> []) by discriminate.
  split; [exact H|].
  exact (load_succeeds_iff strptime_d example_data H).
Defined.

(** X4. No column other than the day columns is read: for a well-formed
    table without a column named [Alarms] (a name the reshaper refuses),
    the table and the same table without the columns whose name does not
    contain [Count_] give the same result. *)
Theorem other_columns_ignored (strptime : string -> option Timestamp)
  (data : Data) :
  DataFrame data = Ok data ->
  ~ In "Alarms" (map fst (data_values data)) ->
  load_and_process_data strptime data
  = load_and_process_data strptime
      (mkData (data_Room_Codes data) (data_Rooms data)
              (filter (fun c => contains "Count_" (fst c)) (data_values data))).
Proof.
  intros Hdf Hal.
  destruct (DataFrame_Ok _ _ Hdf) as (_ & Hr & Hv).
  set (data' := mkData (data_Room_Codes data) (data_Rooms data)
                       (filter (fun c => contains "Count_" (fst c))
                               (data_values data))).
  assert (Hdf' : DataFrame data' = Ok data').
  { unfold DataFrame; cbn [data_Room_Codes data_Rooms data_values data'].
    rewrite Hr, Nat.eqb_refl.
    replace (forallb _ _) with true; [reflexivity|].
    symmetry; apply forallb_forall. rewrite Forall_forall in Hv.
    intros c Hc; apply filter_In in Hc as [Hc _]; apply Nat.eqb_eq; auto. }
  assert (Hno : forall d : Data,
             ~ In "Alarms" (map fst (data_values d)) ->
             existsb (String.eqb "Alarms") (columns d) = false).
  { intros d Hd. unfold columns; cbn [existsb].
    cbn [String.eqb Ascii.eqb Bool.eqb orb andb].
    destruct (existsb (String.eqb "Alarms") (map fst (data_values d))) eqn:E;
      auto.
    apply existsb_exists in E as (x & Hx & Heq).
    apply String.eqb_eq in Heq; subst x. contradiction. }
  assert (Hal' : ~ In "Alarms" (map fst (data_values data'))).
  { cbn [data_values data']. intros Hin. apply Hal.
    apply in_map_iff in Hin as (c & Hc & Hin).
    apply filter_In in Hin as [Hin _]. rewrite <- Hc. apply in_map; auto. }
  unfold load_and_process_data. rewrite Hdf, Hdf'; cbn [bind].
  assert (Hvars : value_vars_of data' = value_vars_of data).
  { rewrite !value_vars_of_eq; cbn [data_values data'].
    generalize (data_values data) as cols.
    induction cols as [|[n v] rest IH]; simpl; auto.
    destruct (contains "Count_" n) eqn:E; simpl; rewrite ?E, IH; auto. }
  rewrite Hvars. unfold melt. rewrite (Hno data Hal), (Hno data' Hal').
  rewrite (mapM_ext_in (melt_var data') (melt_var data)); auto.
  intros col Hcol. apply value_vars_In in Hcol as [Hcol _].
  unfold melt_var; cbn [data_Room_Codes data_Rooms data_values data'].
  replace (get_column col (filter _ (data_values data)))
    with (get_column col (data_values data)); auto.
  generalize (data_values data) as cols.
  induction cols as [|[n v] rest IH]; simpl; auto.
  destruct (String.eqb_spec n col) as [->|Hn].
  - rewrite Hcol; simpl. rewrite String.eqb_refl; reflexivity.
  - destruct (contains "Count_" n); simpl; auto.
    destruct (String.eqb_spec n col); [contradiction|auto].
Qed.

Lemma other_columns_ignored_witness :
  let data := mkData ["A"] ["Room A"] [("Floor", [7]); ("Count_03", [4])] in
  DataFrame data = Ok data /\
  ~ In "Alarms" (map fst (data_values data)) /\
  load_and_process_data strptime_d data
  = load_and_process_data strptime_d
      (mkData ["A"] ["Room A"] [("Count_03", [4])]).
Proof.
  intros data.
  assert (H : DataFrame data = Ok data) by reflexivity.
  assert (Hal : ~ In "Alarms" (map fst (data_values data)))
    by (simpl; intuition discriminate).
  split; [exact H|]. split; [exact Hal|].
  exact (other_columns_ignored strptime_d data H Hal).
Defined.

Lemma replace_without_C (t : string) :
  contains "C" t = false -> replace_from "Count_" "" 0 t = t.
Proof.
  induction t as [|c t IH]; [reflexivity|].
  cbn [contains replace_from prefix].
  destruct (ascii_dec "C" c) as [_|_].
  - destruct t; discriminate.
  - cbn [orb]. intros Ht. rewrite (IH Ht). reflexivity.
Qed.

(** X5. A column named [Count_] followed by a token without the letter C
    (digits, for instance) is a day column, and its day token is what
    follows the prefix. *)
Theorem day_token_of_Count (tok : string) :
  contains "C" tok = false ->
  contains "Count_" (String.append "Count_" tok) = true /\
  day_token (String.append "Count_" tok) = tok.
Proof.
  intros H. destruct tok as [|a t]; [split; reflexivity|].
  split; [reflexivity|].
  unfold day_token, str_replace.
  change (replace_from "Count_" "" 0 (String.append "Count_" (String a t)))
    with (replace_from "Count_" "" 0 (String a t)).
  apply replace_without_C; auto.
Qed.

Lemma day_token_of_Count_witness :
  contains "C" "17" = false /\
  contains "Count_" "Count_17" = true /\ day_token "Count_17" = "17".
Proof.
  split; [reflexivity|].
  exact (day_token_of_Count "17" eq_refl).
Defined.

(** ** Analyzer: the rows of the room ranking *)

Lemma room_alarms_nonempty {D : Type} (df : list (obs D)) (c : string) :
  In c (map Room_Codes df) -> room_alarms df c <> [].
Proof.
  intros Hin. apply in_map_iff in Hin as (r & <- & Hr).
  unfold room_alarms, group_of.
  assert (Hf : In r (filter (fun r0 => if string_dec (Room_Codes r0) (Room_Codes r)
                                       then true else false) df)).
  { apply filter_In; split; auto.
    destruct (string_dec (Room_Codes r) (Room_Codes r)); congruence. }
  intros Hnil. apply (in_map Alarms) in Hf. rewrite Hnil in Hf; contradiction.
Qed.

Lemma room_totals_In {D : Type} {HD : DateColumn D} (df : list (obs D)) (x : string * RoomTotals.t) :
  In x (room_totals_of df) ->
  x = agg_totals (fst x, room_alarms df (fst x)) /\
  In (fst x) (map Room_Codes df).
Proof.
  intros Hin.
  apply (Permutation_in _ (room_totals_Permutation df)) in Hin.
  unfold groupby_Room_Codes, groupby in Hin.
  rewrite map_map in Hin. apply in_map_iff in Hin as (k & <- & Hk).
  split; [reflexivity|].
  apply (group_keys_In string_dec String.leb Room_Codes); auto.
Qed.

Lemma room_totals_index {D : Type} {HD : DateColumn D} (df : list (obs D)) :
  Permutation (map fst (room_totals_of df))
              (nodup string_dec (map Room_Codes df)).
Proof.
  rewrite (Permutation_map fst (room_totals_Permutation df)).
  unfold groupby_Room_Codes, groupby. rewrite !map_map; simpl. rewrite map_id.
  apply group_keys_Permutation.
Qed.

Lemma room_totals_index_NoDup {D : Type} {HD : DateColumn D} (df : list (obs D)) :
  NoDup (map fst (room_totals_of df)).
Proof.
  eapply Permutation_NoDup; [symmetry; apply room_totals_index|].
  apply NoDup_nodup.
Qed.

Lemma fold_left_max (t : list Z) (x : Z) :
  let m := fold_left Z.max t x in
  (m = x \/ In m t) /\ x <= m /\ Forall (fun y => y <= m) t.
Proof.
  revert x; induction t as [|y t IH]; intros x; simpl.
  - repeat split; auto; lia.
  - destruct (IH (Z.max x y)) as (Hm & Hle & Hall).
    repeat split; [| lia |constructor; auto; lia].
    destruct Hm as [Hm|Hm]; auto.
    rewrite Hm. destruct (Z.max_spec x y) as [[_ ->]|[_ ->]]; auto.
Qed.

Lemma series_max_spec (l : list Z) :
  l <> [] ->
  exists m, series_max l = Some m /\ In m l /\ Forall (fun x => x <= m) l.
Proof.
  destruct l as [|x t]; [congruence|]; intros _.
  destruct (fold_left_max t x) as (Hm & Hle & Hall).
  exists (fold_left Z.max t x); split; [reflexivity|]. split.
  - destruct Hm as [Hm|Hm]; [left; symmetry; exact Hm|right; exact Hm].
  - constructor; auto.
Qed.

(** X6. The room ranking is a function of each room's own alarms: it has one
    row per room of the long table, and the row of a room holds the sum, the
    mean, the maximum and the number of positive values of that room's
    alarms. *)
Theorem room_totals_by_room (df : LongTable) :
  Permutation (map fst (room_totals_of df))
              (nodup string_dec (map Room_Codes df)) /\
  room_totals_of df
  = map (fun c => (c, RoomTotals.mk (sum (room_alarms df c))
                                    (mean (room_alarms df c))
                                    (series_max (room_alarms df c))
                                    (count_positive (room_alarms df c))))
        (map fst (room_totals_of df)).
Proof.
  split; [apply room_totals_index|].
  rewrite map_map. rewrite <- (map_id (room_totals_of df)) at 1.
  apply map_ext_in. intros x Hx.
  destruct (room_totals_In df x Hx) as [Heq _].
  rewrite Heq at 1. reflexivity.
Qed.

(** X7. In every row of the room ranking [max_daily_alarms] is a number, is
    one of the room's daily alarms, and no daily alarm of the room exceeds
    it. *)
Theorem room_max_is_maximum (df : LongTable) (c : string) (t : RoomTotals.t) :
  In (c, t) (room_totals_of df) ->
  exists m,
    RoomTotals.max_daily_alarms t = Some m /\
    In m (room_alarms df c) /\
    Forall (fun x => x <= m) (room_alarms df c).
Proof.
  intros Hin. destruct (room_totals_In df _ Hin) as [Heq Hc]; simpl in *.
  injection Heq as ->; cbn [RoomTotals.max_daily_alarms snd].
  apply series_max_spec, room_alarms_nonempty; auto.
Qed.

Lemma room_max_is_maximum_witness :
  In (agg_totals ("A", [3; 5])) (room_totals_of example_long) /\
  exists m,
    RoomTotals.max_daily_alarms (snd (agg_totals ("A", [3; 5]))) = Some m /\
    In m (room_alarms example_long "A") /\
    Forall (fun x => x <= m) (room_alarms example_long "A").
Proof.
  assert (H : In (agg_totals ("A", [3; 5])) (room_totals_of example_long))
    by (left; reflexivity).
  split; [exact H|].
  exact (room_max_is_maximum example_long "A" _ H).
Defined.

Lemma filter_map_swap {A B : Type} (g : A -> B) (q : B -> bool) (l : list A) :
  filter q (map g l) = map g (filter (fun x => q (g x)) l).
Proof.
  induction l as [|x t IH]; simpl; auto.
  destruct (q (g x)); simpl; rewrite IH; auto.
Qed.

Lemma filter_eq_NoDup (c : string) (l : list string) :
  NoDup l -> In c l ->
  List.length (filter (fun x => if string_dec x c then true else false) l) = 1%nat.
Proof.
  induction 1 as [|x t Hx Hnd IH]; intros Hin; [contradiction|].
  simpl. destruct (string_dec x c) as [->|Hn].
  - simpl. f_equal. clear IH Hnd Hin.
    induction t as [|y t IHt]; simpl; auto.
    destruct (string_dec y c) as [->|_].
    + exfalso; apply Hx; left; auto.
    + apply IHt. intros H; apply Hx; right; auto.
  - destruct Hin as [->|Hin]; [congruence|auto].
Qed.

(** The number of observations of a room of a loaded table is the number
    of day columns. *)
Lemma room_alarms_length (strptime : string -> option Timestamp) (data : Data)
  (df : Frame) (c : string) :
  load_and_process_data strptime data = Ok df ->
  NoDup (data_Room_Codes data) ->
  In c (map Room_Codes df) ->
  List.length (room_alarms df c) = List.length (value_vars_of data).
Proof.
  intros Hload Hnd Hc.
  pose proof (load_keys strptime data df Hload) as Hk.
  assert (Hcodes : In c (data_Room_Codes data)).
  { apply in_map_iff in Hc as (r & <- & Hr).
    apply (in_map (fun r => (Room_Codes r, Some (Date r)))) in Hr.
    rewrite Hk in Hr. apply in_flat_map in Hr as (v & _ & Hr).
    apply in_map_iff in Hr as (c' & Heq & Hc'); injection Heq as <- _; auto. }
  unfold room_alarms, group_of. rewrite length_map.
  transitivity
    (List.length
       (filter (fun p : string * option Datetime =>
                  if string_dec (fst p) c then true else false)
               (map (fun r => (Room_Codes r, Some (Date r))) df))).
  { rewrite filter_map_swap, length_map. reflexivity. }
  rewrite Hk. clear Hk.
  induction (value_vars_of data) as [|v vs IH]; simpl; auto.
  rewrite filter_app, length_app, IH.
  rewrite filter_map_swap, length_map. cbn [fst].
  rewrite (filter_eq_NoDup c (data_Room_Codes data)); auto.
Qed.

(** X8. For a loaded table with pairwise distinct room codes,
    [days_with_alarms] of every room lies between zero and the number of day
    columns. *)
Theorem days_with_alarms_bounds (strptime : string -> option Timestamp)
  (data : Data) (df : Frame) (c : string) (t : RoomTotals.t) :
  load_and_process_data strptime data = Ok df ->
  NoDup (data_Room_Codes data) ->
  In (c, t) (room_totals_of df) ->
  0 <= RoomTotals.days_with_alarms t
  <= Z.of_nat (List.length (value_vars_of data)).
Proof.
  intros Hload Hnd Hin.
  destruct (room_totals_In df _ Hin) as [Heq Hc]; simpl in *.
  injection Heq as ->; cbn [RoomTotals.days_with_alarms snd].
  rewrite <- (room_alarms_length strptime data df c Hload Hnd Hc).
  unfold count_positive. split; [lia|].
  apply inj_le, filter_length_le.
Qed.

Lemma days_with_alarms_bounds_witness :
  load_and_process_data strptime_d example_data = Ok (with_dates example_long) /\
  NoDup (data_Room_Codes example_data) /\
  In (agg_totals ("A", [3; 5])) (room_totals_of (with_dates example_long)) /\
  0 <= RoomTotals.days_with_alarms (snd (agg_totals ("A", [3; 5]))) <= 2.
Proof.
  assert (Hload : load_and_process_data strptime_d example_data
                  = Ok (with_dates example_long)) by reflexivity.
  assert (Hnd : NoDup (data_Room_Codes example_data)).
  { repeat constructor; simpl; intuition discriminate. }
  assert (H : In (agg_totals ("A", [3; 5]))
                 (room_totals_of (with_dates example_long)))
    by (left; reflexivity).
  split; [exact Hload|]. split; [exact Hnd|]. split; [exact H|].
  exact (days_with_alarms_bounds strptime_d example_data
           (with_dates example_long) "A" _ Hload Hnd H).
Defined.

(** ** Summarizer: maximum, top rooms, empty tables *)

Lemma insights_Ok_inv {D : Type} {HD : DateColumn D} (df : list (obs D)) (ins : Insights.t) :
  insights_of df = Ok ins ->
  exists m,
    series_max (map snd (daily_totals_of df)) = Some m /\
    ins = Insights.mk (sum (map total_of (room_totals_of df)))
                      (mean (map snd (daily_totals_of df))) m
                      (map fst (head 5 (room_totals_of df)))
                      (map RoomStats.Room_Codes
                         (filter (fun r => gt_scalar (RoomStats.cv r) 1)
                                 (room_stats_of df))).
Proof.
  unfold insights_of, generate_insights.
  destruct (series_max (map snd (daily_totals_of df))) as [m|];
    unfold int_of_max, bind; [|discriminate].
  intros H; injection H as <-. exists m; auto.
Qed.

Lemma daily_totals_nil {D : Type} {HD : DateColumn D} (df : list (obs D)) :
  daily_totals_of df = [] <-> dropna df = [].
Proof.
  rewrite daily_totals_dropna. split.
  - intros H. rewrite <- daily_totals_eq in H.
    apply daily_totals_empty; auto.
  - intros ->; reflexivity.
Qed.

Lemma insights_raise_dropna {D : Type} {HD : DateColumn D} (df : list (obs D)) :
  insights_of df = Raise ValueError <-> dropna df = [].
Proof.
  rewrite <- daily_totals_nil.
  unfold insights_of, generate_insights.
  destruct (daily_totals_of df) as [|p t]; simpl.
  - split; auto.
  - split; discriminate.
Qed.

Lemma insights_raise_iff (df : LongTable) :
  insights_of df = Raise ValueError <-> df = [].
Proof. rewrite insights_raise_dropna, dropna_id. reflexivity. Qed.

(** X9. When the summarizer produces its record, [max_daily_alarms] is one
    of the daily totals and no daily total exceeds it. *)
Theorem max_daily_is_maximum (df : LongTable) (ins : Insights.t) :
  insights_of df = Ok ins ->
  In (Insights.max_daily_alarms ins) (map snd (daily_totals_of df)) /\
  Forall (fun x => x <= Insights.max_daily_alarms ins)
         (map snd (daily_totals_of df)).
Proof.
  intros H. destruct (insights_Ok_inv df ins H) as (m & Hm & ->).
  cbn [Insights.max_daily_alarms].
  destruct (map snd (daily_totals_of df)) as [|x t] eqn:E; [discriminate|].
  destruct (series_max_spec (x :: t)) as (m' & Hm' & Hin & Hall);
    [discriminate|].
  rewrite Hm in Hm'; injection Hm' as <-; auto.
Qed.

Lemma max_daily_is_maximum_witness :
  insights_of example_long = Ok (Insights.mk 8 (of_Q (8 # 2)) 5 ["A"; "B"] []) /\
  In 5 (map snd (daily_totals_of example_long)) /\
  Forall (fun x => x <= 5) (map snd (daily_totals_of example_long)).
Proof.
  assert (H : insights_of example_long
              = Ok (Insights.mk 8 (of_Q (8 # 2)) 5 ["A"; "B"] []))
    by reflexivity.
  split; [exact H|].
  exact (max_daily_is_maximum example_long _ H).
Defined.

Lemma StronglySorted_app_inv {A : Type} (R : A -> A -> Prop) (l1 l2 : list A) :
  StronglySorted R (l1 ++ l2) ->
  forall x y, In x l1 -> In y l2 -> R x y.
Proof.
  induction l1 as [|a t IH]; simpl; intros H x y Hx Hy; [contradiction|].
  inversion H as [|? ? Hs Hf]; subst.
  destruct Hx as [<-|Hx]; [|eapply IH; eauto].
  rewrite Forall_forall in Hf. apply Hf, in_or_app; right; auto.
Qed.

(** X10. No room outside [top_rooms] has more alarms in total than a room
    listed in [top_rooms]. *)
Theorem top_rooms_dominate (df : LongTable) (ins : Insights.t)
  (a b : string * RoomTotals.t) :
  insights_of df = Ok ins ->
  In a (room_totals_of df) ->
  In b (room_totals_of df) ->
  In (fst a) (Insights.top_rooms ins) ->
  ~ In (fst b) (Insights.top_rooms ins) ->
  total_of b <= total_of a.
Proof.
  intros H Ha Hb Hta Htb.
  destruct (insights_Ok_inv df ins H) as (m & _ & ->).
  cbn [Insights.top_rooms] in *. unfold head in *.
  pose proof (room_totals_sorted df) as Hs.
  pose proof (room_totals_index_NoDup df) as Hnd.
  rewrite <- (firstn_skipn 5 (room_totals_of df)) in Ha, Hb, Hs, Hnd.
  rewrite map_app in Hnd.
  apply in_app_or in Ha, Hb.
  assert (Ha' : In a (firstn 5 (room_totals_of df))).
  { destruct Ha as [Ha|Ha]; auto. exfalso.
    apply (in_map fst) in Ha.
    revert Hta Ha Hnd. generalize (map fst (firstn 5 (room_totals_of df))).
    intros l Hta Ha Hnd. induction l as [|x l IHl]; [contradiction|].
    inversion Hnd as [|? ? Hx Hl]; subst. destruct Hta as [->|Hta]; auto.
    apply Hx, in_or_app; right; auto. }
  assert (Hb' : In b (skipn 5 (room_totals_of df))).
  { destruct Hb as [Hb|Hb]; auto. exfalso; apply Htb, in_map; auto. }
  exact (StronglySorted_app_inv _ _ _ Hs a b Ha' Hb').
Qed.

Lemma top_rooms_dominate_witness :
  let ins := Insights.mk 21 (of_Q (21 # 1)) 21 ["F"; "E"; "D"; "C"; "B"] [] in
  let a := agg_totals ("B", [2]) in
  let b := agg_totals ("A", [1]) in
  insights_of six_rooms_long = Ok ins /\
  In a (room_totals_of six_rooms_long) /\
  In b (room_totals_of six_rooms_long) /\
  In (fst a) (Insights.top_rooms ins) /\
  ~ In (fst b) (Insights.top_rooms ins) /\
  total_of b <= total_of a.
Proof.
  intros ins a b.
  assert (H : insights_of six_rooms_long = Ok ins) by reflexivity.
  assert (Ha : In a (room_totals_of six_rooms_long))
    by (vm_compute; tauto).
  assert (Hb : In b (room_totals_of six_rooms_long))
    by (vm_compute; tauto).
  assert (Hta : In (fst a) (Insights.top_rooms ins)) by (simpl; tauto).
  assert (Htb : ~ In (fst b) (Insights.top_rooms ins))
    by (simpl; intuition discriminate).
  split; [exact H|]. split; [exact Ha|]. split; [exact Hb|].
  split; [exact Hta|]. split; [exact Htb|].
  exact (top_rooms_dominate six_rooms_long ins a b H Ha Hb Hta Htb).
Defined.

Lemma dropna_nil (df : Frame) :
  dropna df = [] <-> Forall (fun r => Date r = None) df.
Proof.
  induction df as [|r t IH].
  - split; [constructor|reflexivity].
  - change (dropna (r :: t))
      with (match Date r with
            | Some d => [set_Date (fun _ => d) r]
            | None => []
            end ++ dropna t).
    destruct (Date r) as [d|] eqn:E; simpl.
    + split; [discriminate|].
      intros H; apply Forall_inv in H; cbv beta in H.
      unfold Datetime in *; congruence.
    + rewrite IH. split; [constructor; auto|apply Forall_inv_tail].
Qed.

(** A loaded table has no dated row exactly when it has no room or every
    day column has a missing-value token. *)
Lemma load_dropna_nil (strptime : string -> option Timestamp)
  (data : Data) (df : Frame) :
  load_and_process_data strptime data = Ok df ->
  (dropna df = [] <->
   data_Room_Codes data = [] \/
   forall col, In col (value_vars_of data) -> is_missing (day_token col) = true).
Proof.
  intros Hload. rewrite dropna_nil.
  pose proof (load_keys strptime data df Hload) as Hk.
  split.
  - intros Hall.
    destruct (data_Room_Codes data) as [|c cs] eqn:Ec; [left; reflexivity|].
    right. intros col Hcol.
    assert (Hin : In (c, parse_token strptime (day_token col))
                     (map (fun r => (Room_Codes r, Some (Date r))) df)).
    { rewrite Hk. apply in_flat_map. exists col; split; auto. left; auto. }
    apply in_map_iff in Hin as (r & Heq & Hr). injection Heq as _ Heq.
    rewrite Forall_forall in Hall.
    pose proof (Hall r Hr) as Hn; cbv beta in Hn.
    unfold Datetime in *. rewrite Hn in Heq.
    unfold parse_token in Heq.
    destruct (is_missing (day_token col)); [reflexivity|].
    destruct (strptime (day_token col)); discriminate.
  - intros Hcase. apply Forall_forall. intros r Hr.
    apply (in_map (fun r => (Room_Codes r, Some (Date r)))) in Hr.
    unfold Datetime in *. rewrite Hk in Hr.
    apply in_flat_map in Hr as (col & Hcol & Hr).
    apply in_map_iff in Hr as (c & Heq & Hc). injection Heq as _ Heq.
    destruct Hcase as [Hnil|Hmiss].
    + rewrite Hnil in Hc; contradiction.
    + unfold parse_token in Heq. rewrite (Hmiss col Hcol) in Heq.
      congruence.
Qed.

(** X11. A table the reshaper accepts makes the summarizer raise exactly
    when it has no room or every day column has a missing-value token (in
    particular when there is no day column): no row has a date then, the
    daily totals are empty and their maximum cannot be converted. *)
Theorem insights_raise_iff_no_dates (strptime : string -> option Timestamp)
  (data : Data) (df : Frame) :
  load_and_process_data strptime data = Ok df ->
  (insights_of df = Raise ValueError <->
   data_Room_Codes data = [] \/
   forall col, In col (value_vars_of data) -> is_missing (day_token col) = true).
Proof.
  intros Hload. rewrite insights_raise_dropna.
  apply (load_dropna_nil strptime data df Hload).
Qed.

Lemma insights_raise_iff_no_dates_witness :
  load_and_process_data strptime_d empty_token_data
  = Ok [mkObs "A" "Room A" None 4] /\
  (insights_of [mkObs "A" "Room A" (None : Datetime) 4] = Raise ValueError <->
   data_Room_Codes empty_token_data = [] \/
   forall col, In col (value_vars_of empty_token_data) ->
               is_missing (day_token col) = true).
Proof.
  assert (H : load_and_process_data strptime_d empty_token_data
              = Ok [mkObs "A" "Room A" None 4]) by reflexivity.
  split; [exact H|].
  exact (insights_raise_iff_no_dates strptime_d empty_token_data _ H).
Defined.

(** ** Summarizer: which rooms count as highly variable *)

Lemma high_variance_iff (df : LongTable) (ins : Insights.t) (r : RoomStats.t) :
  insights_of df = Ok ins ->
  In r (room_stats_of df) ->
  (In (RoomStats.Room_Codes r) (Insights.rooms_with_high_variance ins) <->
   gt_scalar (RoomStats.cv r) 1 = true).
Proof.
  intros H Hin. destruct (insights_Ok_inv df ins H) as (m & _ & ->).
  cbn [Insights.rooms_with_high_variance]. split.
  - intros Hl. apply in_map_iff in Hl as (r' & Hcode & Hr').
    apply filter_In in Hr' as [Hin' Hgt].
    rewrite (room_stats_In df r' Hin'), Hcode, <- (room_stats_In df r Hin) in Hgt.
    exact Hgt.
  - intros Hgt. apply in_map, filter_In; auto.
Qed.

Lemma mean_of_nonempty (l : list Z) :
  l <> [] -> mean l = Real (sum l # Pos.of_nat (List.length l)) 1.
Proof. destruct l; [congruence|reflexivity]. Qed.

Lemma cv_of_two (l : list Z) :
  (2 <= List.length l)%nat -> sum l <> 0 ->
  fdiv (std l) (mean l)
  = Real (1 / ((sum l # Pos.of_nat (List.length l)) * 1)) (var l * 1).
Proof.
  intros H2 Hs. rewrite std_of_two by auto.
  rewrite mean_of_nonempty by (destruct l; [simpl in H2; lia|discriminate]).
  unfold fdiv.
  replace (is_zero (Real (sum l # Pos.of_nat (List.length l)) 1)) with false;
    [reflexivity|].
  symmetry. unfold is_zero. rewrite orb_false_r.
  destruct (Qeq_bool _ 0) eqn:E; auto.
  apply Qeq_bool_iff in E. unfold Qeq in E; simpl in E. lia.
Qed.

Lemma sum_constant (k : Z) (l : list Z) :
  Forall (fun x => x = k) l -> sum l = Z.of_nat (List.length l) * k.
Proof.
  induction 1 as [|x t Hx Ht IH]; [reflexivity|].
  cbn [sum fold_right List.length]. fold (sum t). rewrite IH, Hx. lia.
Qed.

Lemma squares_constant (m : Q) (k : Z) (l : list Z) :
  (m == inject_Z k)%Q -> Forall (fun x => x = k) l ->
  (fold_right Qplus 0
     (map (fun x => (inject_Z x - m) * (inject_Z x - m)) l) == 0)%Q.
Proof.
  intros Hm; induction 1 as [|x t Hx Ht IH]; simpl; [reflexivity|].
  subst x. rewrite IH, Hm. ring.
Qed.

Lemma var_constant (k : Z) (l : list Z) :
  l <> [] -> Forall (fun x => x = k) l -> (var l == 0)%Q.
Proof.
  intros Hne Hall. unfold var, Qdiv.
  rewrite (squares_constant _ k); auto; [ring|].
  rewrite (sum_constant k l Hall).
  unfold Qeq, inject_Z; simpl.
  assert (Z.pos (Pos.of_nat (List.length l)) = Z.of_nat (List.length l)).
  { destruct l; [congruence|]. simpl List.length.
    rewrite <- Pos.of_nat_succ, Zpos_P_of_succ_nat; lia. }
  lia.
Qed.

(** X12. A room with at least two observations, all equal to the same
    non-zero count, has a finite coefficient of variation equal to zero and
    is not listed among the rooms with high variance. *)
Theorem constant_room_not_high_variance (df : LongTable) (ins : Insights.t)
  (r : RoomStats.t) (k : Z) :
  insights_of df = Ok ins ->
  In r (room_stats_of df) ->
  (2 <= List.length (room_alarms df (RoomStats.Room_Codes r)))%nat ->
  Forall (fun x => x = k) (room_alarms df (RoomStats.Room_Codes r)) ->
  k <> 0 ->
  is_finite (RoomStats.cv r) = true /\
  is_zero (RoomStats.cv r) = true /\
  ~ In (RoomStats.Room_Codes r) (Insights.rooms_with_high_variance ins).
Proof.
  intros Hins Hin H2 Hall Hk.
  rewrite (high_variance_iff df ins r Hins Hin).
  rewrite (room_stats_In df r Hin).
  set (l := room_alarms df (RoomStats.Room_Codes r)) in *.
  unfold agg_stats; cbn [RoomStats.cv snd].
  assert (Hne : l <> []) by (destruct l; [simpl in H2; lia|discriminate]).
  assert (Hs : sum l <> 0) by (rewrite (sum_constant k l Hall); nia).
  rewrite cv_of_two by auto.
  assert (Hv : (var l * 1 == 0)%Q) by (rewrite (var_constant k l Hne Hall); ring).
  split; [reflexivity|]. split.
  - unfold is_zero. rewrite (proj2 (Qeq_bool_iff _ _) Hv), orb_true_r; auto.
  - unfold gt_scalar. cbn [Z.leb Z.compare].
    set (c := (1 / ((sum l # Pos.of_nat (List.length l)) * 1))%Q).
    assert (Hle : Qle_bool (c * c * (var l * 1)) (inject_Z (1 * 1)) = true).
    { apply Qle_bool_iff. rewrite Hv. unfold Qle; simpl; lia. }
    rewrite Hle. rewrite andb_false_r. discriminate.
Qed.

Lemma constant_room_not_high_variance_witness :
  let df := [mkObs "A" "Room A" 1%nat 4; mkObs "A" "Room A" 2%nat 4;
             mkObs "A" "Room A" 3%nat 4] in
  let r := agg_stats ("A", [4; 4; 4]) in
  let ins := Insights.mk 12 (of_Q (12 # 3)) 4 ["A"] [] in
  insights_of df = Ok ins /\
  In r (room_stats_of df) /\
  (2 <= List.length (room_alarms df "A"))%nat /\
  Forall (fun x => x = 4) (room_alarms df "A") /\
  is_finite (RoomStats.cv r) = true /\
  is_zero (RoomStats.cv r) = true /\
  ~ In "A" (Insights.rooms_with_high_variance ins).
Proof.
  intros df r ins.
  assert (Hins : insights_of df = Ok ins) by reflexivity.
  assert (Hin : In r (room_stats_of df)) by (left; reflexivity).
  assert (H2 : (2 <= List.length (room_alarms df (RoomStats.Room_Codes r)))%nat)
    by (vm_compute; lia).
  assert (Hall : Forall (fun x => x = 4) (room_alarms df (RoomStats.Room_Codes r)))
    by (repeat constructor).
  assert (Hk : 4 <> 0) by discriminate.
  split; [exact Hins|]. split; [exact Hin|]. split; [exact H2|].
  split; [exact Hall|].
  exact (constant_room_not_high_variance df ins r 4 Hins Hin H2 Hall Hk).
Defined.

Lemma squares_pos (m : Q) (l : list Z) :
  (m == 0)%Q -> Exists (fun x => x <> 0) l ->
  (0 < fold_right Qplus 0
         (map (fun x => (inject_Z x - m) * (inject_Z x - m)) l))%Q.
Proof.
  intros Hm; induction 1 as [x t Hx|x t Ht IH]; simpl.
  - apply (Qplus_lt_le_compat 0 _ 0 _); [|apply squares_nonneg].
    rewrite Hm.
    setoid_replace ((inject_Z x - 0) * (inject_Z x - 0))%Q
      with (inject_Z (x * x)) by (rewrite inject_Z_mult; ring).
    change 0%Q with (inject_Z 0). rewrite <- Zlt_Qlt. nia.
  - rewrite Qplus_comm.
    apply (Qplus_lt_le_compat 0 _ 0 _); auto.
    pose proof (squares_nonneg m [x]) as H; simpl in H.
    rewrite Qplus_0_r in H; exact H.
Qed.

(** X14. A room with at least two observations whose alarms sum to zero
    without all being zero (counts of both signs) has an infinite
    coefficient of variation and is listed among the rooms with high
    variance. *)
Theorem zero_mean_room_is_high_variance (df : LongTable) (ins : Insights.t)
  (r : RoomStats.t) :
  insights_of df = Ok ins ->
  In r (room_stats_of df) ->
  (2 <= List.length (room_alarms df (RoomStats.Room_Codes r)))%nat ->
  sum (room_alarms df (RoomStats.Room_Codes r)) = 0 ->
  Exists (fun x => x <> 0) (room_alarms df (RoomStats.Room_Codes r)) ->
  RoomStats.cv r = Inf false /\
  In (RoomStats.Room_Codes r) (Insights.rooms_with_high_variance ins).
Proof.
  intros Hins Hin H2 Hs Hex.
  rewrite (high_variance_iff df ins r Hins Hin).
  rewrite (room_stats_In df r Hin).
  set (l := room_alarms df (RoomStats.Room_Codes r)) in *.
  unfold agg_stats; cbn [RoomStats.cv snd].
  assert (Hne : l <> []) by (destruct l; [simpl in H2; lia|discriminate]).
  assert (Hcv : fdiv (std l) (mean l) = Inf false).
  { rewrite std_of_two by auto.
    pose proof (proj2 (mean_zero_iff l) (conj Hne Hs)) as Hz.
    rewrite mean_of_nonempty in * by auto.
    unfold fdiv. rewrite Hz.
    assert (Hv : (0 < var l)%Q).
    { unfold var, Qdiv. apply Qmult_lt_0_compat.
      - apply squares_pos; auto. rewrite Hs; reflexivity.
      - apply Qinv_lt_0_compat.
        change 0%Q with (inject_Z 0); rewrite <- Zlt_Qlt; lia. }
    unfold is_zero, is_neg.
    replace (Qeq_bool (var l) 0) with false; [reflexivity|].
    symmetry. destruct (Qeq_bool (var l) 0) eqn:E; auto.
    apply Qeq_bool_iff in E. rewrite E in Hv.
    exfalso; apply (Qlt_irrefl 0); auto. }
  rewrite Hcv. split; reflexivity.
Qed.

Lemma zero_mean_room_is_high_variance_witness :
  let df := [mkObs "A" "Room A" 1%nat (-1); mkObs "A" "Room A" 2%nat 1] in
  let r := agg_stats ("A", [-1; 1]) in
  let ins := Insights.mk 0 (of_Q (0 # 2)) 1 ["A"] ["A"] in
  insights_of df = Ok ins /\
  In r (room_stats_of df) /\
  (2 <= List.length (room_alarms df "A"))%nat /\
  sum (room_alarms df "A") = 0 /\
  Exists (fun x => x <> 0) (room_alarms df "A") /\
  RoomStats.cv r = Inf false /\
  In "A" (Insights.rooms_with_high_variance ins).
Proof.
  intros df r ins.
  assert (Hins : insights_of df = Ok ins) by reflexivity.
  assert (Hin : In r (room_stats_of df)) by (left; reflexivity).
  assert (H2 : (2 <= List.length (room_alarms df (RoomStats.Room_Codes r)))%nat)
    by (vm_compute; lia).
  assert (Hs : sum (room_alarms df (RoomStats.Room_Codes r)) = 0) by reflexivity.
  assert (Hex : Exists (fun x => x <> 0)
                       (room_alarms df (RoomStats.Room_Codes r)))
    by (left; discriminate).
  split; [exact Hins|]. split; [exact Hin|]. split; [exact H2|].
  split; [exact Hs|]. split; [exact Hex|].
  exact (zero_mean_room_is_high_variance df ins r Hins Hin H2 Hs Hex).
Defined.

(** ** Visualizer: when the figure is produced, and its shape *)

Lemma has_duplicates_false {D : Type} {HD : DateColumn D} (l : list (string * D)) :
  has_duplicates l = false <-> NoDup l.
Proof.
  induction l as [|[c d] t IH]; simpl.
  - split; auto; constructor.
  - rewrite orb_false_iff, IH. split.
    + intros [He Ht]. constructor; auto.
      intros Hin.
      assert (Hex : existsb (fun p => String.eqb (fst p) c
                                      && (if date_eq_dec (snd p) d
                                          then true else false)) t
                    = true).
      { apply existsb_exists. exists (c, d); split; auto; simpl.
        rewrite String.eqb_refl.
        destruct (date_eq_dec d d); [reflexivity|congruence]. }
      congruence.
    + intros Hnd. inversion Hnd as [|? ? Hn Ht]; subst. split; auto.
      destruct (existsb (fun p => String.eqb (fst p) c
                                  && (if date_eq_dec (snd p) d
                                      then true else false)) t)
        eqn:E; auto.
      apply existsb_exists in E as ([c' d'] & Hin & Heq); simpl in Heq.
      apply andb_prop in Heq as [H1 H2].
      apply String.eqb_eq in H1.
      destruct (date_eq_dec d' d); [|discriminate]. subst.
      contradiction.
Qed.

Lemma bar_Ok_iff (heights : list Z) :
  (exists bars, bar 10 heights = Ok bars) <->
  (List.length heights = 10%nat \/ List.length heights = 1%nat).
Proof.
  unfold bar. destruct (Nat.eqb_spec (List.length heights) 10) as [E|E].
  - split; eauto.
  - destruct heights as [|h [|h' t]]; simpl in *.
    + split; [intros [? H]; discriminate|intros [H|H]; discriminate].
    + split; eauto.
    + split; [intros [? H]; discriminate|intros [H|H]; [contradiction|discriminate]].
Qed.

Lemma bar_length (heights bars : list Z) :
  bar 10 heights = Ok bars -> List.length bars = 10%nat.
Proof.
  unfold bar. destruct (Nat.eqb_spec (List.length heights) 10) as [E|E].
  - intros H; injection H as <-; auto.
  - destruct heights as [|h [|h' t]]; try discriminate.
    intros H; injection H as <-; reflexivity.
Qed.

Lemma In_firstn {A : Type} (n : nat) (l : list A) (x : A) :
  In x (firstn n l) -> In x l.
Proof.
  revert l; induction n as [|n IH]; intros [|y t]; simpl; try contradiction.
  intros [->|H]; auto.
Qed.

Lemma figure_Ok_inv {D : Type} {HD : DateColumn D} (seaborn_style : bool)
  (df : list (obs D)) (daily : list (Timestamp * Z))
  (totals : list (string * RoomTotals.t)) (fig : Figure D) :
  create_visualizations seaborn_style df daily totals = Ok fig ->
  seaborn_style = true /\
  List.length (firstn 10 totals) = 10%nat /\
  has_duplicates (map (fun r => (Room_Codes r, Date r)) df) = false /\
  fig = mkFigure daily (map total_of (firstn 10 totals))
          (map fst (firstn 10 totals))
          (group_keys date_eq_dec date_leb Date df)
          (firstn 20
             (map (fun c => (c, map (cell df c)
                                    (group_keys date_eq_dec date_leb Date df)))
                  (group_keys string_dec String.leb Room_Codes df)))
          (map Alarms df).
Proof.
  unfold create_visualizations, head, pivot, style_use, xticks.
  destruct seaborn_style; [|discriminate]. cbn [bind].
  destruct (bar 10 (map total_of (firstn 10 totals))) as [bars|e] eqn:Eb;
    [|discriminate].
  cbn [bind]. rewrite length_map.
  destruct (Nat.eqb_spec (List.length (firstn 10 totals)) 10) as [E10|E10];
    [|discriminate].
  cbn [bind].
  destruct (has_duplicates _); [discriminate|].
  unfold bind; cbv beta iota; unfold fst, snd.
  intros H. split; [reflexivity|]. split; [exact E10|]. split; [reflexivity|].
  assert (Hbars : bars = map total_of (firstn 10 totals)).
  { unfold bar in Eb. rewrite length_map, E10 in Eb. cbn [Nat.eqb] in Eb.
    injection Eb as <-; reflexivity. }
  subst bars. congruence.
Qed.

Lemma figure_total {D : Type} {HD : DateColumn D} (df : list (obs D)) :
  (10 <= List.length (nodup string_dec (map Room_Codes df)))%nat ->
  NoDup (map (fun r => (Room_Codes r, Date r)) df) ->
  exists fig,
    create_visualizations true df (daily_totals_of df) (room_totals_of df)
    = Ok fig.
Proof.
  intros HR Hnd. unfold create_visualizations, style_use, xticks, head.
  cbn [bind].
  assert (Hlen : List.length (firstn 10 (room_totals_of df)) = 10%nat).
  { rewrite length_firstn, room_totals_length. lia. }
  unfold bar. rewrite !length_map, Hlen. cbn [Nat.eqb bind].
  unfold pivot. rewrite (proj2 (has_duplicates_false _) Hnd). cbn [bind]. eauto.
Qed.

(** X15. With the 'seaborn' style at hand, the figure is produced for a
    long table exactly when it has at least ten rooms and no (room, date)
    pair occurs twice; without the style it is never produced.  Fewer than
    ten rooms do not fill the ten positions of the bar chart, and the pivot
    of the heat map rejects repeated pairs. *)
Theorem figure_produced_iff (seaborn_style : bool) (df : LongTable) :
  let R := List.length (nodup string_dec (map Room_Codes df)) in
  (exists fig,
      create_visualizations seaborn_style df (daily_totals_of df)
        (room_totals_of df) = Ok fig)
  <->
  (seaborn_style = true /\ (10 <= R)%nat /\
   NoDup (map (fun r => (Room_Codes r, Date r)) df)).
Proof.
  intros R; split.
  - intros [fig H].
    destruct (figure_Ok_inv _ _ _ _ _ H) as (Hs & Hlen & Hd & _).
    split; [exact Hs|]. split; [|apply has_duplicates_false; exact Hd].
    rewrite length_firstn, room_totals_length in Hlen. fold R in Hlen. lia.
  - intros (-> & HR & Hnd). apply figure_total; auto.
Qed.

Example figure_produced_ex :
  (exists fig,
      create_visualizations true twenty_one_long
        (daily_totals_of twenty_one_long) (room_totals_of twenty_one_long)
      = Ok fig) /\
  create_visualizations false twenty_one_long
    (daily_totals_of twenty_one_long) (room_totals_of twenty_one_long)
  = Raise OSError /\
  create_visualizations true single_day_long
    (daily_totals_of single_day_long) (room_totals_of single_day_long)
  = Raise ValueError.
Proof.
  split; [eexists; vm_compute; reflexivity|]. split; reflexivity.
Qed.

(** X16. A produced figure has ten bars with ten tick labels and twenty
    heat-map rows (one per room when there are fewer), and every heat-map
    row has one cell per date of the heat map. *)
Theorem figure_shape {D : Type} {HD : DateColumn D} (seaborn_style : bool)
  (df : list (obs D)) (fig : Figure D) :
  create_visualizations seaborn_style df (daily_totals_of df)
    (room_totals_of df) = Ok fig ->
  let R := List.length (nodup string_dec (map Room_Codes df)) in
  List.length (top_10_bars fig) = 10%nat /\
  List.length (top_10_ticks fig) = 10%nat /\
  List.length (heatmap_rows fig) = Nat.min 20 R /\
  Forall (fun row => List.length (snd row) = List.length (heatmap_dates fig))
         (heatmap_rows fig).
Proof.
  intros H R.
  destruct (figure_Ok_inv _ _ _ _ _ H) as (_ & Hlen & _ & ->).
  cbn [top_10_bars top_10_ticks heatmap_rows heatmap_dates].
  rewrite !length_map.
  split; [exact Hlen|]. split; [exact Hlen|].
  split.
  - rewrite length_firstn, length_map.
    rewrite (Permutation_length
               (group_keys_Permutation string_dec String.leb Room_Codes df)).
    reflexivity.
  - apply Forall_forall. intros row Hrow.
    apply In_firstn in Hrow.
    apply in_map_iff in Hrow as (c & <- & _). cbn [snd].
    apply length_map.
Qed.

Lemma figure_shape_witness :
  exists fig,
    create_visualizations true twenty_one_long (daily_totals_of twenty_one_long)
      (room_totals_of twenty_one_long) = Ok fig /\
    List.length (top_10_bars fig) = 10%nat /\
    List.length (top_10_ticks fig) = 10%nat /\
    List.length (heatmap_rows fig) = 20%nat /\
    Forall (fun row => List.length (snd row) = List.length (heatmap_dates fig))
           (heatmap_rows fig).
Proof.
  destruct (create_visualizations true twenty_one_long
              (daily_totals_of twenty_one_long) (room_totals_of twenty_one_long))
    as [fig|e] eqn:E; [|vm_compute in E; discriminate E].
  exists fig. split; [reflexivity|].
  exact (figure_shape true twenty_one_long fig E).
Defined.

(** X17. For a table the reshaper produced, no cell of the heat map is
    missing: every room of the table has an observation on every date. *)
Theorem heatmap_has_no_missing_cell (strptime : string -> option Timestamp)
  (seaborn_style : bool) (data : Data) (df : Frame)
  (daily : list (Timestamp * Z)) (totals : list (string * RoomTotals.t))
  (fig : Figure Datetime) :
  load_and_process_data strptime data = Ok df ->
  create_visualizations seaborn_style df daily totals = Ok fig ->
  Forall (fun row => Forall (fun x => x <> None) (snd row)) (heatmap_rows fig).
Proof.
  intros Hload H.
  destruct (figure_Ok_inv _ _ _ _ _ H) as (_ & _ & _ & ->).
  cbn [heatmap_rows].
  pose proof (load_keys strptime data df Hload) as Hk.
  apply Forall_forall. intros row Hrow. apply In_firstn in Hrow.
  apply in_map_iff in Hrow as (c & <- & Hc). cbn [snd].
  apply Forall_forall. intros x Hx.
  apply in_map_iff in Hx as (d & <- & Hd).
  apply (group_keys_In string_dec String.leb Room_Codes) in Hc.
  apply (group_keys_In date_eq_dec date_leb Date) in Hd.
  assert (Hcell : In (c, Some d) (map (fun r => (Room_Codes r, Some (Date r))) df)).
  { apply in_map_iff in Hc as (rc & <- & Hrc).
    apply in_map_iff in Hd as (rd & <- & Hrd).
    apply (in_map (fun r => (Room_Codes r, Some (Date r)))) in Hrc, Hrd.
    unfold Datetime in *. rewrite Hk in Hrc, Hrd |- *.
    apply in_flat_map in Hrc as (v1 & _ & Hrc).
    apply in_flat_map in Hrd as (v2 & Hv2 & Hrd).
    apply in_map_iff in Hrc as (c1 & Heq1 & Hc1); injection Heq1 as <- _.
    apply in_map_iff in Hrd as (c2 & Heq2 & _); injection Heq2 as _ <-.
    apply in_flat_map. exists v2; split; auto.
    apply (in_map (fun c0 => (c0, parse_token strptime (day_token v2)))); auto. }
  apply in_map_iff in Hcell as (r & Heq & Hr); injection Heq as <- <-.
  unfold cell.
  destruct (find (fun r0 => String.eqb (Room_Codes r0) (Room_Codes r)
                            && (if date_eq_dec (Date r0) (Date r)
                                then true else false)) df)
    as [r'|] eqn:Ef; [discriminate|].
  apply (find_none _ _ Ef) in Hr.
  rewrite String.eqb_refl in Hr.
  destruct (date_eq_dec (Date r) (Date r)); [discriminate|congruence].
Qed.

Lemma heatmap_has_no_missing_cell_witness :
  load_and_process_data strptime_d twenty_one_rooms
  = Ok (with_dates twenty_one_long) /\
  exists fig,
    create_visualizations true (with_dates twenty_one_long)
      (daily_totals_of (with_dates twenty_one_long))
      (room_totals_of (with_dates twenty_one_long)) = Ok fig /\
    Forall (fun row => Forall (fun x => x <> None) (snd row)) (heatmap_rows fig).
Proof.
  assert (Hload : load_and_process_data strptime_d twenty_one_rooms
                  = Ok (with_dates twenty_one_long)) by (vm_compute; reflexivity).
  split; [exact Hload|].
  destruct (create_visualizations true (with_dates twenty_one_long)
              (daily_totals_of (with_dates twenty_one_long))
              (room_totals_of (with_dates twenty_one_long)))
    as [fig|e] eqn:E; [|vm_compute in E; discriminate E].
  exists fig. split; [reflexivity|].
  exact (heatmap_has_no_missing_cell strptime_d true twenty_one_rooms
           (with_dates twenty_one_long) _ _ fig Hload E).
Defined.

(** ** The pipeline as a whole *)

Lemma main_unfold (strptime : string -> option Timestamp) (seaborn_style : bool)
  (data : Data) :
  main strptime seaborn_style data
  = (df <- load_and_process_data strptime data ;;
     fig <- create_visualizations seaborn_style df (daily_totals_of df)
              (room_totals_of df) ;;
     insights <- insights_of df ;;
     lines <- mapM (fun room => t <- loc_total room (room_totals_of df) ;;
                                Ok (room, t))
                   (Insights.top_rooms insights) ;;
     Ok (mkRun df (daily_totals_of df) (room_totals_of df) (room_stats_of df)
               insights fig
               (mkReport (Insights.total_alarms insights)
                         (Insights.avg_daily_alarms insights)
                         (Insights.max_daily_alarms insights) lines))).
Proof. reflexivity. Qed.

Lemma loc_total_NoDup (totals : list (string * RoomTotals.t))
  (x : string * RoomTotals.t) :
  NoDup (map fst totals) -> In x totals ->
  loc_total (fst x) totals = Ok (total_of x).
Proof.
  induction totals as [|[c r] rest IH]; simpl; intros Hnd Hin; [contradiction|].
  inversion Hnd as [|? ? Hc Hrest]; subst.
  destruct Hin as [<-|Hin].
  - simpl. rewrite String.eqb_refl; reflexivity.
  - destruct (String.eqb_spec c (fst x)) as [->|_]; auto.
    exfalso; apply Hc, in_map; auto.
Qed.

Lemma report_lines (totals l : list (string * RoomTotals.t)) :
  NoDup (map fst totals) -> incl l totals ->
  mapM (fun room => t <- loc_total room totals ;; Ok (room, t)) (map fst l)
  = Ok (map (fun x => (fst x, total_of x)) l).
Proof.
  intros Hnd; induction l as [|x t IH]; intros Hl; simpl; auto.
  rewrite (loc_total_NoDup totals x Hnd) by (apply Hl; left; auto).
  cbn [bind]. rewrite IH by (intros y Hy; apply Hl; right; auto).
  reflexivity.
Qed.

Lemma incl_firstn {A : Type} (n : nat) (l : list A) : incl (firstn n l) l.
Proof. intros x; apply In_firstn. Qed.

(** X18. Whenever [main] returns, its long table is the reshaper's result,
    its insights are the summarizer's on that table, the printed total is the
    sum of all alarms, and the printed room lines are the first five rows of
    the room ranking, each with that room's own total. *)
Theorem main_report (strptime : string -> option Timestamp)
  (seaborn_style : bool) (data : Data) (run : Run) :
  main strptime seaborn_style data = Ok run ->
  load_and_process_data strptime data = Ok (run_df run) /\
  insights_of (run_df run) = Ok (run_insights run) /\
  report_total (run_report run) = sum (map Alarms (run_df run)) /\
  report_rooms (run_report run)
  = map (fun x => (fst x, total_of x)) (head 5 (room_totals_of (run_df run))).
Proof.
  rewrite main_unfold. intros H.
  destruct (load_and_process_data strptime data) as [df|e]; [|discriminate].
  cbn [bind] in H.
  destruct (create_visualizations seaborn_style df _ _) as [fig|e];
    [|discriminate].
  cbn [bind] in H.
  destruct (insights_of df) as [ins|e] eqn:Ei; [|discriminate].
  cbn [bind] in H.
  destruct (insights_Ok_inv df ins Ei) as (m & _ & Hins).
  assert (Htop : Insights.top_rooms ins = map fst (head 5 (room_totals_of df)))
    by (rewrite Hins; reflexivity).
  assert (Htot : Insights.total_alarms ins = sum (map Alarms df))
    by (rewrite Hins; cbn [Insights.total_alarms]; apply room_totals_sum).
  rewrite Htop in H.
  rewrite (report_lines (room_totals_of df) (head 5 (room_totals_of df))) in H
    by (try apply room_totals_index_NoDup; apply incl_firstn).
  cbn [bind] in H. injection H as <-.
  cbn [run_df run_insights run_report report_total report_rooms].
  repeat split; auto.
Qed.

Lemma main_report_witness :
  exists run,
    main strptime_d true twenty_one_rooms = Ok run /\
    report_total (run_report run) = sum (map Alarms (run_df run)) /\
    report_rooms (run_report run)
    = map (fun x => (fst x, total_of x)) (head 5 (room_totals_of (run_df run))).
Proof.
  destruct (main strptime_d true twenty_one_rooms) as [run|e] eqn:E;
    [|vm_compute in E; discriminate E].
  exists run. split; [reflexivity|].
  destruct (main_report strptime_d true twenty_one_rooms run E)
    as (_ & _ & H1 & H2).
  split; [exact H1|exact H2].
Defined.

Lemma NoDup_map_Some {A : Type} (l : list (option A)) :
  NoDup l -> NoDup (map (option_map Some) l).
Proof.
  apply NoDup_map_injective.
  intros [x|] [y|] _ _ H; simpl in H; congruence.
Qed.

(** X19. With the 'seaborn' style at hand, the pipeline runs to its end on
    a well-formed table: columns of equal length, none of them named
    [Alarms], at least ten rooms with pairwise distinct codes, at least one
    day column, and day tokens that are not missing-value tokens, that the
    parser accepts and that it maps to pairwise distinct days. *)
Theorem main_succeeds (strptime : string -> option Timestamp) (data : Data) :
  List.length (data_Rooms data) = List.length (data_Room_Codes data) ->
  Forall (fun c => List.length (snd c) = List.length (data_Room_Codes data))
         (data_values data) ->
  ~ In "Alarms" (map fst (data_values data)) ->
  NoDup (data_Room_Codes data) ->
  (10 <= List.length (data_Room_Codes data))%nat ->
  value_vars_of data <> [] ->
  (forall col, In col (value_vars_of data) ->
               is_missing (day_token col) = false /\
               strptime (day_token col) <> None) ->
  NoDup (map (fun col => strptime (day_token col)) (value_vars_of data)) ->
  exists run, main strptime true data = Ok run.
Proof.
  intros Hr Hv Hal Hc HR Hvars Htok Hd.
  assert (Hparse : forall col, In col (value_vars_of data) ->
                     parse_token strptime (day_token col)
                     = option_map Some (strptime (day_token col))).
  { intros col Hcol. unfold parse_token.
    rewrite (proj1 (Htok col Hcol)). reflexivity. }
  destruct (load_total strptime data Hr Hv Hal) as [df Hload].
  { intros col Hcol. rewrite (Hparse col Hcol).
    destruct (strptime (day_token col)) eqn:E; [discriminate|].
    exfalso. apply (proj2 (Htok col Hcol)); exact E. }
  rewrite main_unfold, Hload; cbn [bind].
  pose proof (long_table_rooms strptime data df Hload Hvars Hc) as Hrooms.
  destruct (figure_total df) as [fig ->].
  { rewrite Hrooms; auto. }
  { apply (load_keys_NoDup strptime data); auto.
    rewrite (map_ext_in _ _ _ Hparse), <- map_map.
    apply NoDup_map_Some; exact Hd. }
  cbn [bind].
  destruct (insights_of df) as [ins|e] eqn:Ei.
  - cbn [bind].
    destruct (insights_Ok_inv df ins Ei) as (m & _ & Hins).
    assert (Htop : Insights.top_rooms ins = map fst (head 5 (room_totals_of df)))
      by (rewrite Hins; reflexivity).
    rewrite Htop.
    rewrite (report_lines (room_totals_of df) (head 5 (room_totals_of df)))
      by (try apply room_totals_index_NoDup; apply incl_firstn).
    cbn [bind]. eauto.
  - exfalso.
    assert (He : e = ValueError).
    { unfold insights_of, generate_insights in Ei.
      destruct (series_max _); unfold int_of_max, bind in Ei; congruence. }
    subst e. apply insights_raise_dropna in Ei.
    apply (load_dropna_nil strptime data df Hload) in Ei.
    destruct Ei as [Hnil|Hmiss].
    + rewrite Hnil in HR; simpl in HR; lia.
    + destruct (value_vars_of data) as [|v vs] eqn:Ev; [congruence|].
      pose proof (Hmiss v (or_introl eq_refl)) as H1.
      pose proof (proj1 (Htok v (or_introl eq_refl))) as H2.
      congruence.
Qed.

Lemma main_succeeds_witness :
  List.length (data_Rooms twenty_one_rooms)
  = List.length (data_Room_Codes twenty_one_rooms) /\
  Forall (fun c => List.length (snd c)
                   = List.length (data_Room_Codes twenty_one_rooms))
         (data_values twenty_one_rooms) /\
  ~ In "Alarms" (map fst (data_values twenty_one_rooms)) /\
  NoDup (data_Room_Codes twenty_one_rooms) /\
  (10 <= List.length (data_Room_Codes twenty_one_rooms))%nat /\
  value_vars_of twenty_one_rooms <> [] /\
  (forall col, In col (value_vars_of twenty_one_rooms) ->
               is_missing (day_token col) = false /\
               strptime_d (day_token col) <> None) /\
  NoDup (map (fun col => strptime_d (day_token col))
             (value_vars_of twenty_one_rooms)) /\
  exists run, main strptime_d true twenty_one_rooms = Ok run.
Proof.
  assert (H1 : List.length (data_Rooms twenty_one_rooms)
               = List.length (data_Room_Codes twenty_one_rooms)) by reflexivity.
  assert (H2 : Forall (fun c => List.length (snd c)
                                = List.length (data_Room_Codes twenty_one_rooms))
                      (data_values twenty_one_rooms)) by (repeat constructor).
  assert (Hal : ~ In "Alarms" (map fst (data_values twenty_one_rooms)))
    by (simpl; intuition discriminate).
  assert (H3 : NoDup (data_Room_Codes twenty_one_rooms)).
  { assert (E : nodup string_dec letters = letters) by (vm_compute; reflexivity).
    change (NoDup letters). rewrite <- E. apply NoDup_nodup. }
  assert (H4 : (10 <= List.length (data_Room_Codes twenty_one_rooms))%nat)
    by (vm_compute; lia).
  assert (H5 : value_vars_of twenty_one_rooms <> []) by discriminate.
  assert (H6 : forall col, In col (value_vars_of twenty_one_rooms) ->
                           is_missing (day_token col) = false /\
                           strptime_d (day_token col) <> None).
  { intros col [<-|[]]; split; [reflexivity|discriminate]. }
  assert (H7 : NoDup (map (fun col => strptime_d (day_token col))
                          (value_vars_of twenty_one_rooms))).
  { repeat constructor; simpl; tauto. }
  split; [exact H1|]. split; [exact H2|]. split; [exact Hal|].
  split; [exact H3|]. split; [exact H4|]. split; [exact H5|].
  split; [exact H6|]. split; [exact H7|].
  exact (main_succeeds strptime_d twenty_one_rooms H1 H2 Hal H3 H4 H5 H6 H7).
Defined.
